(** * pip-download: the artifact selection of [pipdownload/cli.py]

    A shallow embedding of the command [pipdownload] of
    [src/pipdownload/cli.py]: the way the command-line options, the persisted
    settings file and the local time zone are combined into the effective
    filters and index URL, the per-candidate download decision, the loop over
    the files that [pip download] materialises, and the loop over the
    packages of the batch.

    Python values are modelled as follows.
    - [str] is [string]; [a in b] on strings is [str_in], [s.endswith(t)] is
      [endswith].
    - The option values [platform_tags], [python_versions] are tuples of
      strings when they come from click and whatever
      [settings_dict.get(key, None)] returns when they come from the settings
      file.  The settings file is documented to hold arrays of strings, so a
      value is [option (list string)], [None] being Python's [None];
      [truthy] is Python truthiness on such a value.
    - A Python [set] of strings is a [gset string]; iterating it visits
      [elements] (Python fixes no order either).
    - Exceptions are an explicit [outcome]; effects on the destination
      directory, on the logger and on the external resolver are recorded in
      a [world] that is threaded through the loops and survives a raise. *)

From stdpp Require Import base strings list gmap.
From Stdlib Require Import ZArith.

Open Scope string_scope.
Open Scope list_scope.

(** ** Strings *)

Module Str.

(** [sub in s] for Python strings: [sub] occurs in [s] at some offset.  The
    empty string occurs in every string. *)
Fixpoint str_in (sub s : string) : bool :=
  String.prefix sub s ||
  match s with
  | EmptyString => false
  | String _ s' => str_in sub s'
  end.

(** [s.endswith(suffix)]. *)
Definition endswith (s suffix : string) : bool :=
  let n := String.length s in
  let m := String.length suffix in
  (m <=? n)%nat && String.eqb (String.substring (n - m) m s) suffix.

End Str.

Export Str.

(** ** Option values and their truthiness *)

(** The value bound to [platform_tags] or [python_versions]. *)
Abbreviation tags := (option (list string)).

(** Python truthiness: [None], [()] and [[]] are false. *)
Definition truthy (v : tags) : bool :=
  match v with
  | Some (_ :: _) => true
  | _ => false
  end.

(** The elements visited by [for tag in v] once [v] is known to be truthy. *)
Definition items (v : tags) : list string := default [] v.

(** ** The decision for one candidate (cli.py, lines 216-249) *)

(** The substring tests of the two tag axes, in the order they are run. *)
Inductive probe : Type :=
  | PlatformProbe (tag : string)
  | VersionProbe (version : string).

(** The loop
<<
    for tag in tags:
        if tag in file:
            eligible = True
            break
        else:
            eligible = False
>>
    from the value [eligible] had before it; it also returns the tags that
    were compared with [file]. *)
Fixpoint tag_loop (tgs : list string) (file : string) (eligible : bool)
  : bool * list string :=
  match tgs with
  | [] => (eligible, [])
  | tag :: rest =>
      if str_in tag file then (true, [tag])
      else let '(e, seen) := tag_loop rest file false in (e, tag :: seen)
  end.

(** Lines 229-249: the two tag axes.  The result is whether [download] is
    reached at line 249, with the substring tests performed. *)
Definition tag_filter (file : string) (platform_tags python_versions : tags)
  : bool * list probe :=
  let eligible := true in
  let '(eligible, seen_p) :=
    if truthy platform_tags then tag_loop (items platform_tags) file eligible
    else (eligible, []) in
  if negb eligible then (false, PlatformProbe <$> seen_p)
  else
    let '(eligible, seen_v) :=
      if truthy python_versions then tag_loop (items python_versions) file eligible
      else (eligible, []) in
    (eligible, (PlatformProbe <$> seen_p) ++ (VersionProbe <$> seen_v)).

(** The test of line 220.  It is made on [file_name], the file that
    [pip download] left in the temporary directory, and not on the candidate
    [file]. *)
Definition is_source_archive (s : string) : bool :=
  endswith s ".tar.gz" || endswith s ".zip".

Definition source_rule (file_name : string) (no_source : bool) : bool :=
  is_source_archive file_name && negb no_source.

(** Lines 216-249: is the candidate [file] of the index page downloaded? *)
Definition is_eligible (file_name file : string) (no_source : bool)
    (platform_tags python_versions : tags) : bool :=
  if str_in "none-any" file then true
  else if source_rule file_name no_source then true
  else (tag_filter file platform_tags python_versions).1.

(** ** The command *)

(** What click hands to [pipdownload]: options declared [multiple=True]
    arrive as tuples of strings, [index_url] arrives with its default
    already filled in by [click_index_url]. *)
Record options : Type := Options {
  packages : list string;
  index_url : string;
  requirement_file : option string;
  dest_dir : option string;
  whl_suffixes : list string;
  platform_tags : list string;
  python_versions : list string;
  quiet : bool;
  no_source : bool;
  show_config : bool
}.

(** [default="https://pypi.org/simple"] of option [--index-url]. *)
Definition default_index_url : string := "https://pypi.org/simple".

Definition click_index_url (given : option string) : string :=
  default default_index_url given.

(** The mirror of line 147 and the zone names of line 146. *)
Definition mirror_index_url : string := "https://mirrors.aliyun.com/pypi/simple/".

Definition mirror_zones : list string := ["Asia/Shanghai"; "Asia/Chongqing"].

(** Lines 145-147: [if tz.zone in [...]: index_url = mirror]. *)
Definition effective_index_url (zone url : string) : string :=
  if bool_decide (zone ∈ mirror_zones) then mirror_index_url else url.

(** Exceptions that leave [pipdownload]. *)
Inductive exn : Type :=
  | CalledProcessError (returncode : Z) (cmd : list string)
  | ConnectionError (url : string).

Inductive outcome : Type :=
  | Normal
  | Raised (e : exn).

Inductive level : Type := INFO | WARNING | ERROR.

(** What the command writes for the user, in order: [click.echo],
    [warnings.warn], the calls made on [logger] (a message or an exception
    object), and the progress that [normal_download] renders for a file (its
    text is that of [pipdownload.utils]; [Progress file] stands for it). *)
Inductive console_event : Type :=
  | Echo (text : string)
  | Warn (text : string)
  | SetLevel (l : level)
  | Log (l : level) (text : string)
  | LogExn (l : level) (e : exn)
  | Progress (file : string).

(** The state the command acts on.
    - [settings_file]: the content of [SETTINGS_FILE], [None] when the file
      does not exist;
    - [downloads]: the calls [download(file, dest_dir)] made so far, that
      is, what has been written to which directory;
    - [pip_calls]: the commands given to [subprocess.check_call];
    - [page_gets]: the URLs given to [session.get];
    - [console]: what was echoed, warned and logged. *)
Record world : Type := World {
  settings_file : option string;
  downloads : list (string * string);
  pip_calls : list (list string);
  page_gets : list string;
  console : list console_event
}.

Definition emit (ev : console_event) (w : world) : world :=
  World (settings_file w) (downloads w) (pip_calls w) (page_gets w) (console w ++ [ev]).

(** [download(file, dest_dir)], where [download] is [quiet_download] under
    [--quiet] and [normal_download] otherwise (lines 155-159): both write
    the file, [normal_download] also renders its progress. *)
Definition download (quiet : bool) (file dest : string) (w : world) : world :=
  World (settings_file w) (downloads w ++ [(file, dest)]) (pip_calls w) (page_gets w)
    (console w ++ (if quiet then [] else [Progress file])).

Definition record_pip_call (cmd : list string) (w : world) : world :=
  World (settings_file w) (downloads w) (pip_calls w ++ [cmd]) (page_gets w) (console w).

Definition record_page_get (url : string) (w : world) : world :=
  World (settings_file w) (downloads w) (pip_calls w) (page_gets w ++ [url]) (console w).

Definition touch_settings (w : world) : world :=
  World (Some "") (downloads w) (pip_calls w) (page_gets w) (console w).

(** The files that directory [dest] has received. *)
Definition dest_files (dest : string) (w : world) : list string :=
  (filter (λ d, d.2 = dest) (downloads w)).*1.

(** The result of [resolve_package_file]: [name] and [version] are [None]
    when the file name has neither the wheel nor the source archive shape. *)
Record PythonPackage : Type := Package {
  name : option string;
  version : option string
}.

(** The package specifiers of the batch, in the order of
    [itertools.chain(packages_extra, packages)] (line 172);
    [requirements] is [[str(value) for value in packages_extra_dict.values()]],
    empty without [--requirement]. *)
Definition packages_extra (requirements : list string) : gset string :=
  list_to_set requirements.

Definition chain_packages (requirements positional : list string) : list string :=
  elements (packages_extra requirements) ++ positional.

(** Lines 128-143 and 149-153: the filters of the run, from the options and
    the parsed settings; [settings_dict] is [None] when [SETTINGS_FILE] does
    not exist.  The third component is what is echoed on the way. *)
Definition settings_python_versions
    (settings_dict : option (gmap string (list string))) (cli : list string)
  : tags * list console_event :=
  match settings_dict with
  | None => (Some cli, [])
  | Some d =>
      if negb (truthy (Some cli)) then
        let v := d !! "python_versions" in
        (v, if negb (truthy v) then [Echo "Using `python_versions` in config file."] else [])
      else (Some cli, [])
  end.

Definition settings_platform_tags
    (settings_dict : option (gmap string (list string)))
    (suffixes cli : list string)
  : tags * list console_event :=
  match settings_dict with
  | None => (Some cli, [])
  | Some d =>
      if negb (truthy (Some suffixes)) || negb (truthy (Some cli)) then
        let v := d !! "platform_tags" in
        (v, if negb (truthy v) then [Echo "Using `platform_tags` in config file."] else [])
      else (Some cli, [])
  end.

(** Lines 149-153. *)
Definition suffix_override (suffixes : list string) (platform : tags)
  : tags * list console_event :=
  if truthy (Some suffixes) then
    (Some suffixes,
     [Warn "Option '-s/--suffix' has been deprecated. Please use '-p/--platform-tag' instead."])
  else (platform, []).

(** ** The loops, over the collaborators of the command *)

Section Command.

(** The collaborators: library and operating system calls, and the helpers
    of [pipdownload.utils] and [pipdownload.settings]. *)

(** [SETTINGS_FILE]. *)
Variable SETTINGS_FILE : string.
(** [json.loads]: the settings object, [None] for [JSONDecodeError].  A
    document that parses to anything but an object whose values are arrays
    of strings is outside the model. *)
Variable json_loads : string → option (gmap string (list string)).
(** [get_localzone().zone]. *)
Variable zone : string.
(** [os.getcwd()]. *)
Variable getcwd : string.
(** [str(value)] for the values of [pip_api.parse_requirements(path)]. *)
Variable parse_requirements : string → list string.
(** [sys.executable]. *)
Variable executable : string.
(** The path of the n-th [TempDirectory] of the run. *)
Variable directory_path : nat → string.
(** Running a pip command: its exit status and [os.listdir] of the
    temporary directory afterwards. *)
Variable pip : list string → Z * list string.
Variable resolve_package_file : string → PythonPackage.
Variable mkurl_pypi_url : string → string → string.
(** [session.get(url).text], [None] when the built-in [ConnectionError] is
    raised.  An exception of another class, and one raised by [download],
    are outside the model. *)
Variable session_get : string → option string.
(** The links that [get_file_links] returns, in the order in which the loop
    of line 214 visits them. *)
Variable get_file_links : string → string → PythonPackage → list string.

(** The values fixed before the loop over the packages starts. *)
Record run : Type := Run {
  run_index_url : string;
  run_dest_dir : string;
  run_platform_tags : tags;
  run_python_versions : tags;
  run_quiet : bool;
  run_no_source : bool
}.

Section Loops.

Variable r : run.

(** Lines 180-192. *)
Definition command (directory package : string) : list string :=
  [executable; "-m"; "pip"; "download"; "-i"; run_index_url r;
   "--dest"; directory; package]
  ++ (if run_quiet r then ["--progress-bar"; "off"; "-qqq"] else []).

(** Lines 214-249: the loop over the candidates of one project page. *)
Definition candidate (file_name : string) (w : world) (file : string) : world :=
  if is_eligible file_name file (run_no_source r)
       (run_platform_tags r) (run_python_versions r)
  then download (run_quiet r) file (run_dest_dir r) w
  else w.

Definition candidates (file_name : string) (files : list string) (w : world) : world :=
  foldl (candidate file_name) w files.

Definition unresolved_warning : string :=
  "Can not resolve a package's name and version from a downloaded package. You shuold "
  +:+ "create an issue maybe.".

(** Lines 204-257: the body of the loop over [file_names]. *)
Definition materialized_file (file_name : string) (w : world) : outcome * world :=
  let python_package := resolve_package_file file_name in
  match name python_package with
  | None => (Normal, emit (Log WARNING unresolved_warning) w)
  | Some project =>
      let url := mkurl_pypi_url (run_index_url r) project in
      let w := record_page_get url w in
      match session_get url with
      | Some text =>
          (Normal, candidates file_name (get_file_links text url python_package) w)
      | None =>
          let e := ConnectionError url in
          (Raised e,
           emit (LogExn ERROR e)
             (emit (Log ERROR ("Can not get information about package " +:+ project
                               +:+ ", and the Exception is below.")) w))
      end
  end.

(** Lines 203-257: [for file_name in file_names], left at the first raise. *)
Fixpoint materialized_files (file_names : list string) (w : world) : outcome * world :=
  match file_names with
  | [] => (Normal, w)
  | file_name :: rest =>
      match materialized_file file_name w with
      | (Normal, w') => materialized_files rest w'
      | (Raised e, w') => (Raised e, w')
      end
  end.

(** Lines 173-258: the body of the loop over the packages.  The temporary
    directory is private to the iteration and removed when the [with]
    block is left, normally or not; nothing else refers to it. *)
Definition package_body (package : string) (w : world) : outcome * world :=
  let directory := directory_path (length (pip_calls w)) in
  let w := emit (Log INFO ("We are using pip download command to download package " +:+ package)) w in
  let w := emit (Log INFO "--------------------------------------------------") w in
  let cmd := command directory package in
  let '(status, file_names) := pip cmd in
  let w := record_pip_call cmd w in
  if bool_decide (status = 0%Z) then
    match materialized_files file_names w with
    | (Normal, w') =>
        (Normal, emit (Log INFO "All packages have been downloaded successfully!") w')
    | (Raised e, w') => (Raised e, w')
    end
  else
    let e := CalledProcessError status cmd in
    (Raised e,
     emit (LogExn ERROR e)
       (emit (Log ERROR ("Sorry, we can not use pip download to download the package "
                         +:+ package +:+ ", and Exception is below")) w)).

(** Line 172: [for package in itertools.chain(packages_extra, packages)]. *)
Fixpoint batch (pkgs : list string) (w : world) : outcome * world :=
  match pkgs with
  | [] => (Normal, w)
  | package :: rest =>
      match package_body package w with
      | (Normal, w') => batch rest w'
      | (Raised e, w') => (Raised e, w')
      end
  end.

End Loops.

(** Lines 161-165: [if not dest_dir: dest_dir = os.getcwd()].  The
    directory itself ([os.makedirs]) is not tracked: [downloads] records
    the directory each file was written to. *)
Definition effective_dest_dir (given : option string) : string :=
  match given with
  | None | Some "" => getcwd
  | Some d => d
  end.

(** Lines 167-171. *)
Definition requirements_of (given : option string) : list string :=
  match given with
  | None | Some "" => []
  | Some path => parse_requirements path
  end.

(** Lines 122-126. *)
Definition show_config_step (o : options) (w : world) : world :=
  if show_config o then
    emit (Echo ("The config file is " +:+ SETTINGS_FILE +:+ "."))
      (if settings_file w is None then touch_settings w else w)
  else w.

(** Lines 128-133: [settings_dict] when [SETTINGS_FILE] exists; a
    [JSONDecodeError] leaves [{}]. *)
Definition read_settings (w : world) : option (gmap string (list string)) :=
  (λ content, default ∅ (json_loads content)) <$> settings_file w.

(** Lines 122-165: the values the loop runs with, and the world once they
    are fixed. *)
Definition prepare (o : options) (w : world) : run * world :=
  let w := show_config_step o w in
  let settings_dict := read_settings w in
  let '(versions, said_v) := settings_python_versions settings_dict (python_versions o) in
  let '(platform, said_p) :=
    settings_platform_tags settings_dict (whl_suffixes o) (platform_tags o) in
  let url := effective_index_url zone (index_url o) in
  let '(platform, said_s) := suffix_override (whl_suffixes o) platform in
  let said_q := if quiet o then [SetLevel ERROR] else [] in
  (Run url (effective_dest_dir (dest_dir o)) platform versions (quiet o) (no_source o),
   foldl (λ w ev, emit ev w) w (said_v ++ said_p ++ said_s ++ said_q)).

(** The command [pipdownload] (lines 105-258). *)
Definition pipdownload (o : options) (w : world) : outcome * world :=
  let '(r, w) := prepare o w in
  batch r (chain_packages (requirements_of (requirement_file o)) (packages o)) w.

End Command.

(** ** Vocabulary of the statements *)

(** The packages the resolver was called for: the ninth word of each
    command (see [command]). *)
Definition fetched (w : world) : list string :=
  omap (λ cmd : list string, cmd !! 8) (pip_calls w).

(** How many times [p] occurs in [l]. *)
Definition occurrences (p : string) (l : list string) : nat :=
  length (filter (λ x, x = p) l).

(** Two worlds with the same files written, the same resolver calls and the
    same page requests. *)
Definition same_effects (w1 w2 : world) : Prop :=
  downloads w1 = downloads w2 ∧ pip_calls w1 = pip_calls w2 ∧ page_gets w1 = page_gets w2.

(** From [w] to [w'] the resolver was only given commands that name [url]
    after [-i], and only project pages under [url] were requested. *)
Definition index_used (mkurl_pypi_url : string → string → string) (url : string)
    (w w' : world) : Prop :=
  ∃ cmds urls,
    pip_calls w' = pip_calls w ++ cmds
    ∧ page_gets w' = page_gets w ++ urls
    ∧ Forall (λ cmd : list string, cmd !! 4 = Some "-i" ∧ cmd !! 5 = Some url) cmds
    ∧ Forall (λ u, ∃ project, u = mkurl_pypi_url url project) urls.

(** [w] with the settings file replaced. *)
Definition with_settings (content : option string) (w : world) : world :=
  World content (downloads w) (pip_calls w) (page_gets w) (console w).

(** What one axis asks of a file: some tag of [v] occurs in it. *)
Definition matches (v : tags) (file : string) : bool :=
  existsb (λ tag, str_in tag file) (items v).

(** An axis passes when it is unconstrained or matched. *)
Definition axis_ok (v : tags) (file : string) : bool :=
  negb (truthy v) || matches v file.

(** The candidates of [files] that are downloaded, in page order. *)
Definition eligible_files (r : run) (file_name : string) (files : list string)
  : list string :=
  filter (λ file, is_eligible file_name file (run_no_source r)
                    (run_platform_tags r) (run_python_versions r) = true) files.

(** [w'] is [w] with more written, fetched, requested and said: nothing
    recorded in [w] is removed or altered. *)
Record extends (w w' : world) : Prop := Extends {
  extends_settings : settings_file w' = settings_file w;
  extends_downloads : downloads w `prefix_of` downloads w';
  extends_pip_calls : pip_calls w `prefix_of` pip_calls w';
  extends_page_gets : page_gets w `prefix_of` page_gets w';
  extends_console : console w `prefix_of` console w'
}.

(** The download [d] comes from the page of the materialised file
    [file_name]: it went to the destination of the run, and its file is an
    eligible candidate among the links of the page that [session.get]
    returned for the project [file_name] resolves to. *)
Definition download_of_file
    (resolve_package_file : string → PythonPackage)
    (mkurl_pypi_url : string → string → string)
    (session_get : string → option string)
    (get_file_links : string → string → PythonPackage → list string)
    (r : run) (file_name : string) (d : string * string) : Prop :=
  d.2 = run_dest_dir r
  ∧ ∃ project text,
      name (resolve_package_file file_name) = Some project
      ∧ session_get (mkurl_pypi_url (run_index_url r) project) = Some text
      ∧ d.1 ∈ get_file_links text (mkurl_pypi_url (run_index_url r) project)
                (resolve_package_file file_name)
      ∧ is_eligible file_name d.1 (run_no_source r)
          (run_platform_tags r) (run_python_versions r) = true.

(** The download [d] is accounted for by a package of [pkgs]: the resolver
    exited with status 0 on the command for that package and left a file
    whose page [d] comes from. *)
Definition download_of_batch
    (executable : string) (pip : list string → Z * list string)
    (resolve_package_file : string → PythonPackage)
    (mkurl_pypi_url : string → string → string)
    (session_get : string → option string)
    (get_file_links : string → string → PythonPackage → list string)
    (r : run) (pkgs : list string) (d : string * string) : Prop :=
  ∃ package directory file_name,
    package ∈ pkgs
    ∧ (pip (command executable r directory package)).1 = 0%Z
    ∧ file_name ∈ (pip (command executable r directory package)).2
    ∧ download_of_file resolve_package_file mkurl_pypi_url session_get get_file_links
        r file_name d.

(** The console events that are calls on [logger] with a record. *)
Definition is_record (ev : console_event) : bool :=
  match ev with
  | Log _ _ | LogExn _ _ => true
  | Echo _ | Warn _ | SetLevel _ | Progress _ => false
  end.

(** What the loops write: logger records and, when [quiet] is false, the
    progress of downloads. *)
Definition batch_event (quiet : bool) (ev : console_event) : Prop :=
  is_record ev = true ∨ (quiet = false ∧ ∃ file, ev = Progress file).

(** [w'] says what [w] says and then only what the loops write. *)
Definition records_added (quiet : bool) (w w' : world) : Prop :=
  ∃ new, console w' = console w ++ new ∧ Forall (batch_event quiet) new.

(** The page requested for a materialised file, if its name resolves. *)
Definition page_of
    (resolve_package_file : string → PythonPackage)
    (mkurl_pypi_url : string → string → string) (r : run) (file_name : string)
  : option string :=
  mkurl_pypi_url (run_index_url r) <$> name (resolve_package_file file_name).

(** ** A small index, to run the command on *)

Module Demo.

Definition opts : options :=
  Options ["foo"] default_index_url None (Some "/wheels") [] ["win_amd64"] [] false false false.

(** A string between double quotes. *)
Definition quoted (s : string) : string :=
  String (Ascii.ascii_of_nat 34) (s +:+ String (Ascii.ascii_of_nat 34) EmptyString).

(** The settings document [{"platform_tags": ["manylinux"]}]. *)
Definition manylinux_settings : string :=
  "{" +:+ quoted "platform_tags" +:+ ": [" +:+ quoted "manylinux" +:+ "]}".

(** [json.loads] on the documents used below; anything else is taken as
    malformed. *)
Definition json_loads (content : string) : option (gmap string (list string)) :=
  if String.eqb content "{}" then Some ∅
  else if String.eqb content manylinux_settings
       then Some {[ "platform_tags" := ["manylinux"] ]}
  else None.

Definition parse_requirements (path : string) : list string :=
  if String.eqb path "requirements.txt" then ["bar"; "foo"] else [].

Definition pip (cmd : list string) : Z * list string :=
  if bool_decide ("foo" ∈ cmd) then (0%Z, ["foo-1.0-cp39-cp39-win_amd64.whl"; "README"])
  else if bool_decide ("bar" ∈ cmd) then (0%Z, ["bar-2.0.tar.gz"])
  else (1%Z, []).

Definition resolve_package_file (file_name : string) : PythonPackage :=
  if str_in "foo-1.0" file_name then Package (Some "foo") (Some "1.0")
  else if str_in "bar-2.0" file_name then Package (Some "bar") (Some "2.0")
  else Package None None.

Definition mkurl_pypi_url (index project : string) : string :=
  index +:+ "/" +:+ project +:+ "/".

Definition session_get (url : string) : option string := Some url.

Definition get_file_links (text url : string) (p : PythonPackage) : list string :=
  match name p with
  | Some "foo" =>
      ["foo-1.0-cp39-cp39-win_amd64.whl"; "foo-1.0-cp39-cp39-manylinux1_x86_64.whl";
       "foo-1.0.tar.gz"]
  | Some "bar" =>
      ["bar-2.0-py3-none-any.whl"; "bar-2.0-cp38-cp38-win32.whl"; "bar-2.0.tar.gz"]
  | _ => []
  end.

Definition start (settings : option string) : world := World settings [] [] [] [].

Definition go (o : options) (zone : string) (w : world) : outcome * world :=
  pipdownload "settings.json" json_loads zone "/cwd" parse_requirements "python"
    (λ n, "/tmp/d") pip resolve_package_file mkurl_pypi_url session_get
    get_file_links o w.

Definition both_ways : options :=
  Options ["foo"] default_index_url (Some "requirements.txt") (Some "/wheels")
    [] [] [] false false false.

Definition no_filter : options :=
  Options ["foo"; "bar"] default_index_url None (Some "/wheels") [] [] [] true true false.

Definition wheels : run :=
  Run default_index_url "/wheels" (Some ["win_amd64"]) (Some []) false false.

Definition batch_of (r : run) : list string → world → outcome * world :=
  batch "python" (λ n, "/tmp/d") pip resolve_package_file mkurl_pypi_url session_get
    get_file_links r.

(** [--python-version cp39 --suffix win32 --platform-tag win_amd64 --quiet]. *)
Definition all_flags : options :=
  Options ["foo"] default_index_url None None ["win32"] ["win_amd64"] ["cp39"]
    true false false.

(** The settings document [{"python_versions": ["cp38"]}]. *)
Definition cp38_settings : string :=
  "{" +:+ quoted "python_versions" +:+ ": [" +:+ quoted "cp38" +:+ "]}".

Definition json_loads_versions (content : string) : option (gmap string (list string)) :=
  if String.eqb content cp38_settings then Some {[ "python_versions" := ["cp38"] ]}
  else json_loads content.

(** [foo], with no option at all. *)
Definition plain : options :=
  Options ["foo"] default_index_url None (Some "/wheels") [] [] [] false false false.

(** An index that cannot be reached. *)
Definition offline_get (url : string) : option string := None.

End Demo.

(** * Properties *)

(** ** Substrings *)

Lemma string_app_nil (s : string) : "" +:+ s = s.
Proof. reflexivity. Qed.

Lemma string_app_cons (c : Ascii.ascii) (a s : string) :
  String c a +:+ s = String c (a +:+ s).
Proof. reflexivity. Qed.

Lemma prefix_nil (s : string) : String.prefix "" s = true.
Proof. by destruct s. Qed.

Lemma prefix_spec (a s : string) :
  String.prefix a s = true ↔ ∃ post, s = a +:+ post.
Proof.
  revert s. induction a as [|c a IH]; intros s.
  - rewrite prefix_nil. split; [intros _; by exists s | done].
  - destruct s as [|d s]; simpl.
    + split; [done | intros [post H]; discriminate H].
    + destruct (Ascii.ascii_dec c d) as [->|Hcd].
      * rewrite IH. split; intros [post H]; exists post.
        -- by rewrite string_app_cons, H.
        -- rewrite string_app_cons in H. by injection H.
      * split; [done | intros [post H]].
        rewrite string_app_cons in H. injection H; intros _ ?. by subst.
Qed.

Lemma str_in_nil (a : string) : str_in a "" = String.prefix a "".
Proof. unfold str_in. apply orb_false_r. Qed.

Lemma str_in_cons (a : string) (c : Ascii.ascii) (s : string) :
  str_in a (String c s) = String.prefix a (String c s) || str_in a s.
Proof. reflexivity. Qed.

(** [str_in] is occurrence at some offset. *)
Lemma str_in_spec (a s : string) :
  str_in a s = true ↔ ∃ pre post, s = pre +:+ a +:+ post.
Proof.
  induction s as [|c s IH].
  - rewrite str_in_nil, prefix_spec. split.
    + intros [post H]. by exists "", post.
    + intros [pre [post H]]. destruct pre.
      * by exists post.
      * rewrite string_app_cons in H. discriminate H.
  - rewrite str_in_cons, orb_true_iff, prefix_spec, IH. split.
    + intros [[post H] | [pre [post H]]].
      * by exists "", post.
      * exists (String c pre), post. by rewrite string_app_cons, H.
    + intros [pre [post H]]. destruct pre as [|d pre].
      * left. by exists post.
      * right. rewrite string_app_cons in H. injection H; intros H' _. by exists pre, post.
Qed.

Lemma length_string_app (a b : string) :
  String.length (a +:+ b) = String.length a + String.length b.
Proof. induction a as [|c a IH]; [done|]. rewrite string_app_cons. simpl. by rewrite IH. Qed.

Lemma substring_all (s : string) : String.substring 0 (String.length s) s = s.
Proof. induction s as [|c s IH]; [done|]. simpl. by rewrite IH. Qed.

Lemma substring_skip (pre s : string) (m : nat) :
  String.substring (String.length pre) m (pre +:+ s) = String.substring 0 m s.
Proof. induction pre as [|c pre IH]; [done|]. by rewrite string_app_cons. Qed.

(** A string is what comes before offset [k] followed by what comes from
    it. *)
Lemma substring_split (s : string) (k m : nat) :
  k + m = String.length s →
  s = String.substring 0 k s +:+ String.substring k m s.
Proof.
  revert k. induction s as [|c s IH]; intros k Hlen; simpl in Hlen.
  - by destruct k, m.
  - destruct k as [|k].
    + simpl in Hlen. subst m. change (String.substring 0 0 (String c s)) with "".
      rewrite string_app_nil. symmetry. apply (substring_all (String c s)).
    + simpl. rewrite string_app_cons. f_equal. apply IH. lia.
Qed.

(** [endswith] is occurrence at the end. *)
Lemma endswith_spec (s suffix : string) :
  endswith s suffix = true ↔ ∃ pre, s = pre +:+ suffix.
Proof.
  unfold endswith. rewrite andb_true_iff, Nat.leb_le, String.eqb_eq. split.
  - intros [Hle Hsub]. exists (String.substring 0 (String.length s - String.length suffix) s).
    pose proof (substring_split s (String.length s - String.length suffix)
                  (String.length suffix)) as Hsplit.
    rewrite Hsub in Hsplit. apply Hsplit. lia.
  - intros [pre ->]. rewrite length_string_app. split; [lia|].
    replace (String.length pre + String.length suffix - String.length suffix)
      with (String.length pre) by lia.
    by rewrite substring_skip, substring_all.
Qed.



(** ** The tag loops *)

Lemma tag_loop_true (tgs : list string) (file : string) :
  (tag_loop tgs file true).1 = bool_decide (tgs = []) || existsb (λ tag, str_in tag file) tgs.
Proof.
  destruct tgs as [|tag rest]; [done|]. simpl.
  destruct (str_in tag file); [done|]. simpl.
  induction rest as [|t rest IH]; [done|]. simpl.
  destruct (str_in t file); [done|].
  destruct (tag_loop rest file false) as [e seen] eqn:E. simpl in *. done.
Qed.

Lemma tag_loop_false (tgs : list string) (file : string) :
  (tag_loop tgs file false).1 = existsb (λ tag, str_in tag file) tgs.
Proof.
  induction tgs as [|t rest IH]; [done|]. simpl.
  destruct (str_in t file); [done|].
  destruct (tag_loop rest file false) as [e seen] eqn:E. simpl in *. done.
Qed.


Lemma truthy_items (v : tags) : truthy v = true → items v ≠ [].
Proof. by destruct v as [[|]|]. Qed.

(** Lines 229-249 compute the conjunction of the two axes. *)
Lemma tag_filter_axes (file : string) (pt pv : tags) :
  (tag_filter file pt pv).1 = axis_ok pt file && axis_ok pv file.
Proof.
  unfold tag_filter, axis_ok, matches.
  destruct (truthy pt) eqn:Hpt; simpl.
  - pose proof (tag_loop_true (items pt) file) as Hl.
    rewrite bool_decide_eq_false_2 in Hl by by apply truthy_items.
    destruct (tag_loop (items pt) file true) as [e seen]. simpl in Hl. subst e.
    destruct (existsb _ (items pt)); simpl; [|done].
    destruct (truthy pv) eqn:Hpv; simpl; [|done].
    pose proof (tag_loop_true (items pv) file) as Hl.
    rewrite bool_decide_eq_false_2 in Hl by by apply truthy_items.
    by destruct (tag_loop (items pv) file true) as [e' seen'].
  - destruct (truthy pv) eqn:Hpv; simpl; [|done].
    pose proof (tag_loop_true (items pv) file) as Hl.
    rewrite bool_decide_eq_false_2 in Hl by by apply truthy_items.
    by destruct (tag_loop (items pv) file true) as [e' seen'].
Qed.


(** ** The decision for one candidate *)

(** A candidate that carries the marker is taken at line 216. *)
Lemma is_eligible_none_any (file_name file : string) (ns : bool) (pt pv : tags) :
  str_in "none-any" file = true → is_eligible file_name file ns pt pv = true.
Proof. intros H. unfold is_eligible. by rewrite H. Qed.


(** Lines 216-222 only ever accept. *)
Lemma is_eligible_axes_enough (file_name file : string) (ns : bool) (pt pv : tags) :
  axis_ok pt file && axis_ok pv file = true → is_eligible file_name file ns pt pv = true.
Proof.
  intros H. unfold is_eligible.
  destruct (str_in "none-any" file); [done|].
  destruct (source_rule file_name ns); [done|].
  by rewrite tag_filter_axes.
Qed.

(** When the test of line 220 is false the candidate is judged on the
    marker and the two axes; its own extension is not looked at. *)
Lemma is_eligible_no_rule (file_name file : string) (ns : bool) (pt pv : tags) :
  source_rule file_name ns = false →
  is_eligible file_name file ns pt pv
  = str_in "none-any" file || (axis_ok pt file && axis_ok pv file).
Proof.
  intros Hrule. unfold is_eligible. rewrite Hrule.
  destruct (str_in "none-any" file); [done|]. apply tag_filter_axes.
Qed.

(** Under [--no-source] the test of line 220 is false for every file. *)
Lemma is_eligible_no_source (file_name file : string) (pt pv : tags) :
  is_eligible file_name file true pt pv
  = str_in "none-any" file || (axis_ok pt file && axis_ok pv file).
Proof. apply is_eligible_no_rule. unfold source_rule. apply andb_false_r. Qed.

(** When the test of line 220 is true every candidate is taken. *)
Lemma is_eligible_rule (file_name file : string) (ns : bool) (pt pv : tags) :
  source_rule file_name ns = true → is_eligible file_name file ns pt pv = true.
Proof.
  intros Hrule. unfold is_eligible. rewrite Hrule. by destruct (str_in "none-any" file).
Qed.

Lemma is_eligible_unconstrained (file_name file : string) (ns : bool) (pt pv : tags) :
  truthy pt = false → truthy pv = false → is_eligible file_name file ns pt pv = true.
Proof.
  intros Hp Hv. apply is_eligible_axes_enough. unfold axis_ok. by rewrite Hp, Hv.
Qed.

(** ** The loop over the candidates *)

Lemma candidates_spec (r : run) (file_name : string) (files : list string) (w : world) :
  candidates r file_name files w =
  World (settings_file w)
        (downloads w ++ ((λ file, (file, run_dest_dir r)) <$> eligible_files r file_name files))
        (pip_calls w) (page_gets w)
        (console w ++ (if run_quiet r then []
                       else Progress <$> eligible_files r file_name files)).
Proof.
  unfold candidates, eligible_files. revert w.
  induction files as [|file files IH]; intros w; simpl.
  - destruct (run_quiet r); rewrite !app_nil_r; by destruct w.
  - rewrite IH. unfold candidate. rewrite filter_cons.
    destruct (is_eligible _ _ _ _ _) eqn:E.
    + rewrite decide_True by done. simpl.
      destruct (run_quiet r); simpl; by rewrite <- !app_assoc.
    + rewrite decide_False by done. done.
Qed.

Lemma elem_of_dest_files (dest file : string) (w : world) :
  file ∈ dest_files dest w ↔ (file, dest) ∈ downloads w.
Proof.
  unfold dest_files. rewrite list_elem_of_fmap. split.
  - intros [[f d] [-> H]]. apply list_elem_of_filter in H as [Hd H]. simpl in *. by subst.
  - intros H. exists (file, dest). split; [done|]. by apply list_elem_of_filter.
Qed.

(** An eligible candidate of the page is in the destination afterwards. *)
Lemma candidates_downloaded (r : run) (file_name file : string) (files : list string)
    (w : world) :
  file ∈ files →
  is_eligible file_name file (run_no_source r)
    (run_platform_tags r) (run_python_versions r) = true →
  file ∈ dest_files (run_dest_dir r) (candidates r file_name files w).
Proof.
  intros Hin He. rewrite elem_of_dest_files, candidates_spec. simpl.
  apply elem_of_app. right. apply list_elem_of_fmap. exists file. split; [done|].
  unfold eligible_files. by apply list_elem_of_filter.
Qed.

(** A candidate that is not eligible adds nothing to the destination. *)
Lemma candidates_not_downloaded (r : run) (file_name file : string) (files : list string)
    (w : world) :
  is_eligible file_name file (run_no_source r)
    (run_platform_tags r) (run_python_versions r) = false →
  file ∈ dest_files (run_dest_dir r) (candidates r file_name files w) →
  file ∈ dest_files (run_dest_dir r) w.
Proof.
  intros He. rewrite !elem_of_dest_files, candidates_spec. simpl.
  intros [H|H]%elem_of_app; [done|].
  apply list_elem_of_fmap in H as [f [[= ->] H]].
  unfold eligible_files in H. apply list_elem_of_filter in H as [H _]. congruence.
Qed.

(** ** What the loops leave in place *)

Lemma extends_refl (w : world) : extends w w.
Proof. by split. Qed.

Lemma extends_trans (w1 w2 w3 : world) : extends w1 w2 → extends w2 w3 → extends w1 w3.
Proof.
  intros [] []. split; [congruence | by etrans ..].
Qed.

Lemma extends_emit (ev : console_event) (w : world) : extends w (emit ev w).
Proof. split; simpl; try done. by apply prefix_app_r. Qed.

Lemma extends_download (quiet : bool) (file dest : string) (w : world) :
  extends w (download quiet file dest w).
Proof. split; simpl; try done; by apply prefix_app_r. Qed.

Lemma extends_record_pip_call (cmd : list string) (w : world) :
  extends w (record_pip_call cmd w).
Proof. split; simpl; try done. by apply prefix_app_r. Qed.

Lemma extends_record_page_get (url : string) (w : world) :
  extends w (record_page_get url w).
Proof. split; simpl; try done. by apply prefix_app_r. Qed.

Lemma extends_candidates (r : run) (file_name : string) (files : list string) (w : world) :
  extends w (candidates r file_name files w).
Proof. rewrite candidates_spec. split; simpl; try done; by apply prefix_app_r. Qed.

Create HintDb world_db.
#[local] Hint Resolve extends_refl extends_emit extends_download extends_record_pip_call
  extends_record_page_get extends_candidates : world_db.

Section Loop_facts.

Variable executable : string.
Variable directory_path : nat → string.
Variable pip : list string → Z * list string.
Variable resolve_package_file : string → PythonPackage.
Variable mkurl_pypi_url : string → string → string.
Variable session_get : string → option string.
Variable get_file_links : string → string → PythonPackage → list string.
Variable r : run.

#[local] Abbreviation file_step :=
  (materialized_file resolve_package_file mkurl_pypi_url session_get get_file_links r).
#[local] Abbreviation files_loop :=
  (materialized_files resolve_package_file mkurl_pypi_url session_get get_file_links r).
#[local] Abbreviation package_step :=
  (package_body executable directory_path pip resolve_package_file mkurl_pypi_url
     session_get get_file_links r).
#[local] Abbreviation batch_loop :=
  (batch executable directory_path pip resolve_package_file mkurl_pypi_url
     session_get get_file_links r).

Lemma materialized_file_extends (file_name : string) (w : world) :
  extends w (file_step file_name w).2.
Proof.
  unfold materialized_file.
  destruct (name _) as [project|]; simpl; [|auto with world_db].
  destruct (session_get _); simpl.
  - eapply extends_trans; [apply extends_record_page_get | apply extends_candidates].
  - eapply extends_trans; [apply extends_record_page_get|].
    eapply extends_trans; apply extends_emit.
Qed.

Lemma materialized_file_pip_calls (file_name : string) (w : world) :
  pip_calls (file_step file_name w).2 = pip_calls w.
Proof.
  unfold materialized_file.
  destruct (name _); simpl; [|done].
  destruct (session_get _); simpl; [|done]. by rewrite candidates_spec.
Qed.

(** The files of a package up to the one that raises, if any. *)
Lemma materialized_files_app (pre post : list string) (w : world) :
  files_loop (pre ++ post) w =
  match files_loop pre w with
  | (Normal, w1) => files_loop post w1
  | (Raised e, w1) => (Raised e, w1)
  end.
Proof.
  revert w. induction pre as [|f pre IH]; intros w; [done|]. simpl.
  destruct (file_step f w) as [[|e] w1]; [apply IH | done].
Qed.

Lemma materialized_files_extends (file_names : list string) (w : world) :
  extends w (files_loop file_names w).2.
Proof.
  revert w. induction file_names as [|f rest IH]; intros w; simpl; [auto with world_db|].
  pose proof (materialized_file_extends f w) as H1.
  destruct (file_step f w) as [[|e] w1]; simpl in *; [|done].
  eapply extends_trans; [exact H1 | apply IH].
Qed.

(** The files of a package leave the resolver's record as it is. *)
Lemma materialized_files_pip_calls (file_names : list string) (w : world) :
  pip_calls (files_loop file_names w).2 = pip_calls w.
Proof.
  revert w. induction file_names as [|f rest IH]; intros w; simpl; [done|].
  pose proof (materialized_file_pip_calls f w) as H1.
  destruct (file_step f w) as [[|e] w1]; simpl in *; [|done].
  by rewrite IH.
Qed.

(** One package: the resolver is called once, with the command of lines
    180-192, whatever happens next. *)
Lemma package_body_pip_calls (package : string) (w : world) :
  pip_calls (package_step package w).2 =
  pip_calls w ++ [command executable r (directory_path (length (pip_calls w))) package].
Proof.
  unfold package_body. simpl.
  destruct (pip _) as [status file_names].
  case_bool_decide as Hst; simpl; [|done].
  pose proof (materialized_files_pip_calls file_names
    (record_pip_call (command executable r (directory_path (length (pip_calls w))) package)
       (emit (Log INFO "--------------------------------------------------")
          (emit (Log INFO ("We are using pip download command to download package "
                           +:+ package)) w)))) as H.
  destruct (files_loop file_names _) as [[|e] w1]; simpl in *; by rewrite H.
Qed.

Lemma package_body_extends (package : string) (w : world) :
  extends w (package_step package w).2.
Proof.
  unfold package_body.
  destruct (pip _) as [status file_names].
  set (w0 := record_pip_call _ _).
  assert (extends w w0) as H0.
  { eapply extends_trans; [apply extends_emit|].
    eapply extends_trans; [apply extends_emit | apply extends_record_pip_call]. }
  case_bool_decide as Hst; simpl.
  - pose proof (materialized_files_extends file_names w0) as H1.
    destruct (files_loop file_names w0) as [[|e] w1]; simpl in *.
    + eapply extends_trans; [exact H0|]. eapply extends_trans; [exact H1 | apply extends_emit].
    + by eapply extends_trans.
  - eapply extends_trans; [exact H0|]. eapply extends_trans; apply extends_emit.
Qed.

(** A resolver that exits with a nonzero status: the exception leaves the
    body, and the destination is as it was. *)
Lemma package_body_resolver_fails (package : string) (w : world) :
  let cmd := command executable r (directory_path (length (pip_calls w))) package in
  (pip cmd).1 ≠ 0%Z →
  ∃ w', package_step package w = (Raised (CalledProcessError (pip cmd).1 cmd), w')
        ∧ downloads w' = downloads w
        ∧ pip_calls w' = pip_calls w ++ [cmd]
        ∧ page_gets w' = page_gets w.
Proof.
  intros cmd Hst. unfold package_body. fold cmd.
  destruct (pip cmd) as [status file_names]. simpl in Hst.
  rewrite bool_decide_eq_false_2 by done. eauto.
Qed.

(** The batch up to the package that raises, if any. *)
Lemma batch_app (pre post : list string) (w : world) :
  batch_loop (pre ++ post) w =
  match batch_loop pre w with
  | (Normal, w1) => batch_loop post w1
  | (Raised e, w1) => (Raised e, w1)
  end.
Proof.
  revert w. induction pre as [|p pre IH]; intros w; [done|]. simpl.
  destruct (package_step p w) as [[|e] w1]; [apply IH | done].
Qed.

Lemma batch_extends (pkgs : list string) (w : world) :
  extends w (batch_loop pkgs w).2.
Proof.
  revert w. induction pkgs as [|p rest IH]; intros w; simpl; [auto with world_db|].
  pose proof (package_body_extends p w) as H1.
  destruct (package_step p w) as [[|e] w1]; simpl in *; [|done].
  eapply extends_trans; [exact H1 | apply IH].
Qed.

(** The package given to the resolver is the last word of the command
    before the quiet flags. *)
Lemma command_package (directory package : string) :
  command executable r directory package !! 8 = Some package.
Proof. reflexivity. Qed.

(** The index given to the resolver follows [-i]. *)
Lemma command_index_url (directory package : string) :
  command executable r directory package !! 4 = Some "-i" ∧
  command executable r directory package !! 5 = Some (run_index_url r).
Proof. by split. Qed.

Lemma package_body_fetched (package : string) (w : world) :
  fetched (package_step package w).2 = fetched w ++ [package].
Proof.
  unfold fetched. by rewrite package_body_pip_calls, omap_app.
Qed.

(** The resolver is called for the packages of the batch in order, up to
    and including the one that raises. *)
Lemma batch_fetched (pkgs : list string) (w : world) :
  ∃ n, fetched (batch_loop pkgs w).2 = fetched w ++ take n pkgs
       ∧ ((batch_loop pkgs w).1 = Normal → n = length pkgs).
Proof.
  revert w. induction pkgs as [|p rest IH]; intros w; simpl.
  - exists 0. by rewrite app_nil_r.
  - pose proof (package_body_fetched p w) as H1.
    destruct (package_step p w) as [[|e] w1]; simpl in *.
    + destruct (IH w1) as [n [Hn Hlen]]. exists (S n). simpl.
      rewrite Hn, H1, <- app_assoc. split; [done|]. intros Hok. by rewrite Hlen.
    + exists 1. simpl. by rewrite take_0.
Qed.

Lemma batch_fetched_normal (pkgs : list string) (w w' : world) :
  batch_loop pkgs w = (Normal, w') → fetched w' = fetched w ++ pkgs.
Proof.
  intros H. destruct (batch_fetched pkgs w) as [n [Hn Hlen]].
  rewrite H in *. simpl in *. rewrite Hn, Hlen by done. by rewrite firstn_all.
Qed.

#[local] Abbreviation used := (index_used mkurl_pypi_url (run_index_url r)).

Lemma index_used_refl (w : world) : used w w.
Proof. exists [], []. by rewrite !app_nil_r. Qed.

Lemma index_used_trans (w1 w2 w3 : world) : used w1 w2 → used w2 w3 → used w1 w3.
Proof.
  intros (c1 & u1 & Hc1 & Hu1 & Fc1 & Fu1) (c2 & u2 & Hc2 & Hu2 & Fc2 & Fu2).
  exists (c1 ++ c2), (u1 ++ u2).
  rewrite Hc2, Hc1, Hu2, Hu1, <- !app_assoc. repeat split; try done; by apply Forall_app.
Qed.

Lemma index_used_quiet (w w' : world) :
  pip_calls w' = pip_calls w → page_gets w' = page_gets w → used w w'.
Proof. intros Hc Hu. exists [], []. by rewrite !app_nil_r. Qed.

Lemma materialized_file_index_used (file_name : string) (w : world) :
  used w (file_step file_name w).2.
Proof.
  unfold materialized_file.
  destruct (name _) as [project|]; simpl; [|by apply index_used_quiet].
  exists [], [mkurl_pypi_url (run_index_url r) project]. rewrite app_nil_r.
  assert (Forall (λ u, ∃ project, u = mkurl_pypi_url (run_index_url r) project)
            [mkurl_pypi_url (run_index_url r) project]) as HF.
  { apply Forall_singleton. by exists project. }
  destruct (session_get _); simpl; [by rewrite candidates_spec | done].
Qed.

Lemma materialized_files_index_used (file_names : list string) (w : world) :
  used w (files_loop file_names w).2.
Proof.
  revert w. induction file_names as [|f rest IH]; intros w; simpl; [apply index_used_refl|].
  pose proof (materialized_file_index_used f w) as H1.
  destruct (file_step f w) as [[|e] w1]; simpl in *; [|done].
  eapply index_used_trans; [exact H1 | apply IH].
Qed.

Lemma package_body_index_used (package : string) (w : world) :
  used w (package_step package w).2.
Proof.
  unfold package_body.
  destruct (pip _) as [status file_names].
  set (cmd := command executable r _ package).
  set (w0 := record_pip_call cmd _).
  assert (used w w0) as H0.
  { exists [cmd], []. rewrite app_nil_r. repeat split; try done.
    apply Forall_singleton, command_index_url. }
  case_bool_decide as Hst; simpl.
  - pose proof (materialized_files_index_used file_names w0) as H1.
    destruct (files_loop file_names w0) as [[|e] w1]; simpl in *.
    + eapply index_used_trans; [exact H0|]. eapply index_used_trans; [exact H1|].
      by apply index_used_quiet.
    + by eapply index_used_trans.
  - eapply index_used_trans; [exact H0|]. by apply index_used_quiet.
Qed.

Lemma batch_index_used (pkgs : list string) (w : world) :
  used w (batch_loop pkgs w).2.
Proof.
  revert w. induction pkgs as [|p rest IH]; intros w; simpl; [apply index_used_refl|].
  pose proof (package_body_index_used p w) as H1.
  destruct (package_step p w) as [[|e] w1]; simpl in *; [|done].
  eapply index_used_trans; [exact H1 | apply IH].
Qed.

End Loop_facts.

(** ** Counting in the batch *)

Lemma occurrences_app (p : string) (l1 l2 : list string) :
  occurrences p (l1 ++ l2) = occurrences p l1 + occurrences p l2.
Proof. unfold occurrences. by rewrite filter_app, length_app. Qed.

Lemma occurrences_absent (p : string) (l : list string) :
  p ∉ l → occurrences p l = 0.
Proof.
  unfold occurrences. induction l as [|x l IH]; intros Hp; [done|].
  apply not_elem_of_cons in Hp as [Hne Hp].
  rewrite filter_cons, decide_False by done. by apply IH.
Qed.

(** In a list without repetition an element occurs once or not at all. *)
Lemma occurrences_NoDup (p : string) (l : list string) :
  NoDup l → occurrences p l = if bool_decide (p ∈ l) then 1 else 0.
Proof.
  induction 1 as [|x l Hx Hl IH].
  - by rewrite bool_decide_eq_false_2 by apply not_elem_of_nil.
  - unfold occurrences in *. rewrite filter_cons.
    destruct (decide (x = p)) as [->|Hne]; simpl.
    + rewrite bool_decide_eq_true_2 by apply list_elem_of_here.
      fold (occurrences p l). by rewrite occurrences_absent.
    + rewrite IH.
      assert (bool_decide (p ∈ x :: l) = bool_decide (p ∈ l)) as ->; [|done].
      apply bool_decide_ext. rewrite elem_of_cons. split; [by intros [->|?] | by right].
Qed.

(** The requirements of the batch lose their repetitions, the positional
    packages keep theirs. *)
Lemma occurrences_chain_packages (p : string) (requirements positional : list string) :
  occurrences p (chain_packages requirements positional) =
  (if bool_decide (p ∈ requirements) then 1 else 0) + occurrences p positional.
Proof.
  unfold chain_packages, packages_extra.
  rewrite occurrences_app, occurrences_NoDup by apply NoDup_elements.
  assert (bool_decide (p ∈ elements (list_to_set requirements : gset string))
          = bool_decide (p ∈ requirements)) as ->; [|done].
  apply bool_decide_ext. by rewrite elem_of_elements, elem_of_list_to_set.
Qed.

(** ** The values the loop runs with *)

Lemma emits_spec (evs : list console_event) (w : world) :
  foldl (λ w ev, emit ev w) w evs =
  World (settings_file w) (downloads w) (pip_calls w) (page_gets w) (console w ++ evs).
Proof.
  revert w. induction evs as [|ev evs IH]; intros w; simpl.
  - rewrite app_nil_r. by destruct w.
  - rewrite IH. simpl. by rewrite <- app_assoc.
Qed.

Section Prepare_facts.

Variable SETTINGS_FILE : string.
Variable json_loads : string → option (gmap string (list string)).
Variable zone : string.
Variable getcwd : string.

#[local] Abbreviation prepare_run := (prepare SETTINGS_FILE json_loads zone getcwd).

Lemma show_config_step_effects (o : options) (w : world) :
  let w' := show_config_step SETTINGS_FILE o w in
  downloads w' = downloads w ∧ pip_calls w' = pip_calls w ∧ page_gets w' = page_gets w.
Proof.
  unfold show_config_step. destruct (show_config o); [|done].
  by destruct (settings_file w).
Qed.

(** Fixing the values of the run writes nothing, fetches nothing and
    requests nothing. *)
Lemma prepare_effects (o : options) (w : world) :
  downloads (prepare_run o w).2 = downloads w
  ∧ pip_calls (prepare_run o w).2 = pip_calls w
  ∧ page_gets (prepare_run o w).2 = page_gets w.
Proof.
  unfold prepare.
  destruct (settings_python_versions _ _) as [versions said_v].
  destruct (settings_platform_tags _ _ _) as [platform said_p].
  destruct (suffix_override _ _) as [platform' said_s]. simpl.
  rewrite emits_spec. simpl. apply show_config_step_effects.
Qed.

Lemma prepare_index_url (o : options) (w : world) :
  run_index_url (prepare_run o w).1 = effective_index_url zone (index_url o).
Proof.
  unfold prepare.
  destruct (settings_python_versions _ _) as [versions said_v].
  destruct (settings_platform_tags _ _ _) as [platform said_p].
  by destruct (suffix_override _ _) as [platform' said_s].
Qed.

(** The filters of the run, from the options and the settings read. *)
Lemma prepare_filters (o : options) (w : world) :
  let d := read_settings json_loads (show_config_step SETTINGS_FILE o w) in
  run_python_versions (prepare_run o w).1 = (settings_python_versions d (python_versions o)).1
  ∧ run_platform_tags (prepare_run o w).1 =
    (suffix_override (whl_suffixes o)
       (settings_platform_tags d (whl_suffixes o) (platform_tags o)).1).1.
Proof.
  unfold prepare. simpl.
  destruct (settings_python_versions _ _) as [versions said_v].
  destruct (settings_platform_tags _ _ _) as [platform said_p].
  by destruct (suffix_override _ _) as [platform' said_s].
Qed.

(** What is said while the values are fixed, after [--show-config]. *)
Lemma prepare_console (o : options) (w : world) :
  let w0 := show_config_step SETTINGS_FILE o w in
  let d := read_settings json_loads w0 in
  console (prepare_run o w).2 =
  console w0
  ++ (settings_python_versions d (python_versions o)).2
  ++ (settings_platform_tags d (whl_suffixes o) (platform_tags o)).2
  ++ (suffix_override (whl_suffixes o)
        (settings_platform_tags d (whl_suffixes o) (platform_tags o)).1).2
  ++ (if quiet o then [SetLevel ERROR] else []).
Proof.
  unfold prepare. simpl.
  destruct (settings_python_versions _ _) as [versions said_v].
  destruct (settings_platform_tags _ _ _) as [platform said_p].
  destruct (suffix_override _ _) as [platform' said_s]. simpl.
  by rewrite emits_spec.
Qed.

(** A settings file that does not parse and no filter option: the two
    lines of 138 and 143 are echoed, as for any settings file without the
    two keys; without a settings file nothing is. *)
Lemma prepare_console_malformed (o : options) (content : string) (w : world) :
  python_versions o = [] → platform_tags o = [] → whl_suffixes o = [] →
  show_config o = false →
  json_loads content = None →
  console (prepare_run o (with_settings (Some content) w)).2 =
    console w ++ [Echo "Using `python_versions` in config file.";
                  Echo "Using `platform_tags` in config file."]
              ++ (if quiet o then [SetLevel ERROR] else [])
  ∧ console (prepare_run o (with_settings None w)).2 =
    console w ++ (if quiet o then [SetLevel ERROR] else []).
Proof.
  intros Hv Hp Hs Hshow Hbad. rewrite !prepare_console.
  unfold show_config_step, read_settings. rewrite Hshow, Hv, Hp, Hs. simpl.
  rewrite Hbad. simpl. by rewrite lookup_empty.
Qed.

Lemma prepare_rest (o : options) (w : world) :
  run_dest_dir (prepare_run o w).1 = effective_dest_dir getcwd (dest_dir o)
  ∧ run_quiet (prepare_run o w).1 = quiet o
  ∧ run_no_source (prepare_run o w).1 = no_source o.
Proof.
  unfold prepare.
  destruct (settings_python_versions _ _) as [versions said_v].
  destruct (settings_platform_tags _ _ _) as [platform said_p].
  by destruct (suffix_override _ _) as [platform' said_s].
Qed.

End Prepare_facts.

(** ** Two runs that decide alike act alike *)

Section Simulation.

Variable executable : string.
Variable directory_path : nat → string.
Variable pip : list string → Z * list string.
Variable resolve_package_file : string → PythonPackage.
Variable mkurl_pypi_url : string → string → string.
Variable session_get : string → option string.
Variable get_file_links : string → string → PythonPackage → list string.
Variables r1 r2 : run.

Hypothesis same_index_url : run_index_url r1 = run_index_url r2.
Hypothesis same_dest_dir : run_dest_dir r1 = run_dest_dir r2.
Hypothesis same_quiet : run_quiet r1 = run_quiet r2.
Hypothesis same_decision : ∀ file_name file,
  is_eligible file_name file (run_no_source r1) (run_platform_tags r1) (run_python_versions r1)
  = is_eligible file_name file (run_no_source r2) (run_platform_tags r2) (run_python_versions r2).

#[local] Abbreviation file_step r :=
  (materialized_file resolve_package_file mkurl_pypi_url session_get get_file_links r).
#[local] Abbreviation files_loop r :=
  (materialized_files resolve_package_file mkurl_pypi_url session_get get_file_links r).
#[local] Abbreviation package_step r :=
  (package_body executable directory_path pip resolve_package_file mkurl_pypi_url
     session_get get_file_links r).
#[local] Abbreviation batch_loop r :=
  (batch executable directory_path pip resolve_package_file mkurl_pypi_url
     session_get get_file_links r).

Lemma same_effects_emit (ev1 ev2 : list console_event) (w1 w2 : world) :
  same_effects w1 w2 →
  same_effects (foldl (λ w ev, emit ev w) w1 ev1) (foldl (λ w ev, emit ev w) w2 ev2).
Proof. rewrite !emits_spec. by intros (? & ? & ?). Qed.

Lemma candidates_sim (file_name : string) (files : list string) (w1 w2 : world) :
  same_effects w1 w2 →
  same_effects (candidates r1 file_name files w1) (candidates r2 file_name files w2).
Proof.
  intros (Hd & Hp & Hg). rewrite !candidates_spec. repeat split; simpl; try done.
  rewrite Hd, same_dest_dir. do 2 f_equal. unfold eligible_files.
  apply list_filter_iff. intros file. by rewrite same_decision.
Qed.

Lemma materialized_file_sim (file_name : string) (w1 w2 : world) :
  same_effects w1 w2 →
  (file_step r1 file_name w1).1 = (file_step r2 file_name w2).1
  ∧ same_effects (file_step r1 file_name w1).2 (file_step r2 file_name w2).2.
Proof.
  intros Hw. unfold materialized_file. rewrite same_index_url.
  destruct (name _) as [project|]; simpl.
  - assert (same_effects (record_page_get (mkurl_pypi_url (run_index_url r2) project) w1)
              (record_page_get (mkurl_pypi_url (run_index_url r2) project) w2)) as Hw'.
    { destruct Hw as (Hd & Hp & Hg). repeat split; simpl; congruence. }
    destruct (session_get _); simpl.
    + split; [done|]. by apply candidates_sim.
    + split; [done|]. destruct Hw' as (Hd & Hp & Hg). by repeat split.
  - split; [done|]. destruct Hw as (Hd & Hp & Hg). by repeat split.
Qed.

Lemma materialized_files_sim (file_names : list string) (w1 w2 : world) :
  same_effects w1 w2 →
  (files_loop r1 file_names w1).1 = (files_loop r2 file_names w2).1
  ∧ same_effects (files_loop r1 file_names w1).2 (files_loop r2 file_names w2).2.
Proof.
  revert w1 w2. induction file_names as [|f rest IH]; intros w1 w2 Hw; simpl; [done|].
  destruct (materialized_file_sim f w1 w2 Hw) as [Ho Hw'].
  destruct (file_step r1 f w1) as [o1 w1'], (file_step r2 f w2) as [o2 w2'].
  simpl in *. subst o2. destruct o1; [by apply IH | done].
Qed.

Lemma command_sim (directory package : string) :
  command executable r1 directory package = command executable r2 directory package.
Proof. unfold command. by rewrite same_index_url, same_quiet. Qed.

Lemma package_body_sim (package : string) (w1 w2 : world) :
  same_effects w1 w2 →
  (package_step r1 package w1).1 = (package_step r2 package w2).1
  ∧ same_effects (package_step r1 package w1).2 (package_step r2 package w2).2.
Proof.
  intros Hw. unfold package_body.
  assert (pip_calls w1 = pip_calls w2) as Hp by apply Hw.
  rewrite command_sim, Hp.
  set (cmd := command executable r2 _ package).
  destruct (pip cmd) as [status file_names].
  set (w1' := record_pip_call cmd _). set (w2' := record_pip_call cmd _).
  assert (same_effects w1' w2') as Hw'.
  { destruct Hw as (Hd & _ & Hg). repeat split; simpl; congruence. }
  case_bool_decide as Hst; simpl.
  - destruct (materialized_files_sim file_names w1' w2' Hw') as [Ho Hw''].
    destruct (files_loop r1 file_names w1') as [o1 v1], (files_loop r2 file_names w2') as [o2 v2].
    simpl in *. subst o2. destruct o1; simpl; [|done].
    split; [done|]. destruct Hw'' as (Hd & Hp' & Hg). by repeat split.
  - split; [done|]. destruct Hw' as (Hd & Hp' & Hg). by repeat split.
Qed.

(** The outcome of the batch and its effects are those of the other run. *)
Lemma batch_sim (pkgs : list string) (w1 w2 : world) :
  same_effects w1 w2 →
  (batch_loop r1 pkgs w1).1 = (batch_loop r2 pkgs w2).1
  ∧ same_effects (batch_loop r1 pkgs w1).2 (batch_loop r2 pkgs w2).2.
Proof.
  revert w1 w2. induction pkgs as [|p rest IH]; intros w1 w2 Hw; simpl; [done|].
  destruct (package_body_sim p w1 w2 Hw) as [Ho Hw'].
  destruct (package_step r1 p w1) as [o1 w1'], (package_step r2 p w2) as [o2 w2'].
  simpl in *. subst o2. destruct o1; [by apply IH | done].
Qed.

End Simulation.

(** * The claims *)

(** ** The per-candidate decision *)

(** C1 (evaluation of the code where it departs from the claim).  The test
    of line 220 reads [file_name], the file the resolver materialised, and
    not the candidate [file]: with [--platform-tag win_amd64], without
    [--no-source], and a wheel materialised for [foo], the candidate
    [foo-1.0.tar.gz] of the project page ends in [.tar.gz], is not eligible,
    and is not in the destination after a run that ends normally.  With that
    wheel materialised, a candidate is judged on [none-any] and the two axes
    whatever its extension. *)
Theorem source_candidate_not_downloaded :
  let file_name := "foo-1.0-cp39-cp39-win_amd64.whl" in
  let file := "foo-1.0.tar.gz" in
  let result := Demo.go Demo.opts "Europe/Paris" (Demo.start None) in
  no_source Demo.opts = false
  ∧ endswith file ".tar.gz" = true
  ∧ file ∈ Demo.get_file_links "" "" (Demo.resolve_package_file file_name)
  ∧ is_eligible file_name file false (Some ["win_amd64"]) (Some []) = false
  ∧ result.1 = Normal
  ∧ (file ∉ dest_files "/wheels" result.2)
  ∧ (∀ candidate no_source pt pv,
        is_eligible file_name candidate no_source pt pv
        = (str_in "none-any" candidate
           || (axis_ok pt candidate && axis_ok pv candidate))).
Proof.
  intros file_name file result. repeat split; try reflexivity.
  - refine (bool_decide_unpack _ _). vm_compute. exact I.
  - refine (bool_decide_unpack _ _). vm_compute. exact I.
  - intros. by apply is_eligible_no_rule.
Qed.

(** C5.  A candidate whose name contains [none-any] is eligible whatever
    the materialised file, [--no-source] and the two filters are, and every
    such candidate of a project page is in the destination once the page has
    been gone through. *)
Theorem none_any_always_downloaded (file : string) :
  str_in "none-any" file = true →
  (∀ file_name no_source platform_tags python_versions,
     is_eligible file_name file no_source platform_tags python_versions = true)
  ∧ (∀ r file_name files w,
       file ∈ files → file ∈ dest_files (run_dest_dir r) (candidates r file_name files w)).
Proof.
  intros Hany. split.
  - intros. by apply is_eligible_none_any.
  - intros r file_name files w Hin. apply candidates_downloaded; [done|].
    by apply is_eligible_none_any.
Qed.

Lemma none_any_always_downloaded_witness :
  str_in "none-any" "bar-2.0-py3-none-any.whl" = true
  ∧ is_eligible "bar-2.0.tar.gz" "bar-2.0-py3-none-any.whl" true
      (Some ["win_amd64"]) (Some ["cp27"]) = true.
Proof.
  split; [reflexivity|].
  apply (none_any_always_downloaded "bar-2.0-py3-none-any.whl"). reflexivity.
Defined.

(** C10.  With both filters empty ([None], [()] or [[]]) every candidate is
    eligible, source archives under [--no-source] included, and every
    candidate of a project page is in the destination once the page has been
    gone through.  Whatever the filters, [--no-source] only takes away the
    download on sight of line 220: what is eligible with it is eligible
    without it, and with it the decision is the one of [none-any] and the two
    axes. *)
Theorem no_filter_downloads_everything (platform_tags python_versions : tags) :
  truthy platform_tags = false → truthy python_versions = false →
  (∀ file_name file no_source,
     is_eligible file_name file no_source platform_tags python_versions = true)
  ∧ (∀ url dest quiet no_source file_name files w file,
       file ∈ files →
       file ∈ dest_files dest
         (candidates (Run url dest platform_tags python_versions quiet no_source)
            file_name files w))
  ∧ (∀ file_name file pt pv,
       is_eligible file_name file true pt pv
       = str_in "none-any" file || (axis_ok pt file && axis_ok pv file))
  ∧ (∀ file_name file pt pv,
       is_eligible file_name file true pt pv = true →
       is_eligible file_name file false pt pv = true).
Proof.
  intros Hp Hv. split; [|split; [|split]].
  - intros. by apply is_eligible_unconstrained.
  - intros url dest quiet ns file_name files w file Hin.
    apply (candidates_downloaded (Run url dest platform_tags python_versions quiet ns));
      [done|]. by apply is_eligible_unconstrained.
  - intros. apply is_eligible_no_source.
  - intros file_name file pt pv. rewrite is_eligible_no_source.
    intros [Hany|Hax]%orb_true_iff.
    + by apply is_eligible_none_any.
    + by apply is_eligible_axes_enough.
Qed.

Lemma no_filter_downloads_everything_witness :
  is_source_archive "foo-1.0.tar.gz" = true
  ∧ is_eligible "foo-1.0-cp39-cp39-win_amd64.whl" "foo-1.0.tar.gz" true (Some []) None = true.
Proof.
  split; [reflexivity|].
  apply (no_filter_downloads_everything (Some []) None); reflexivity.
Defined.




(** ** The filters and the index of the run *)

(** What lines 128-153 leave in [platform_tags]: the suffixes when given,
    else the settings' value whenever the settings file exists, else the
    command line's. *)
Lemma effective_platform_tags
    (settings_dict : option (gmap string (list string))) (suffixes cli : list string) :
  (suffix_override suffixes (settings_platform_tags settings_dict suffixes cli).1).1 =
  match suffixes, settings_dict with
  | _ :: _, _ => Some suffixes
  | [], Some d => d !! "platform_tags"
  | [], None => Some cli
  end.
Proof.
  unfold suffix_override, settings_platform_tags.
  by destruct suffixes as [|s suffixes], settings_dict as [d|], cli as [|t cli].
Qed.

(** What lines 128-139 leave in [python_versions]: the command line's when
    given, else the settings' value when the settings file exists. *)
Lemma effective_python_versions
    (settings_dict : option (gmap string (list string))) (cli : list string) :
  (settings_python_versions settings_dict cli).1 =
  match cli, settings_dict with
  | [], Some d => d !! "python_versions"
  | _, _ => Some cli
  end.
Proof.
  unfold settings_python_versions.
  by destruct cli as [|v cli], settings_dict as [d|].
Qed.

(** C2 (evaluation of the code where it departs from the claim).  With
    [--platform-tag win_amd64], no [--suffix], and a settings file that
    holds [{"platform_tags": ["manylinux"]}], the platform filter of the run
    is the settings' [manylinux]: the test of line 140 is true as soon as
    [whl_suffixes] is empty.  With a settings file that does not parse the
    filter of the same command line is [None]. *)
Theorem platform_tag_option_overwritten :
  let filter_with settings :=
    run_platform_tags
      (prepare "settings.json" Demo.json_loads "Europe/Paris" "/cwd" Demo.opts
         (Demo.start settings)).1 in
  platform_tags Demo.opts = ["win_amd64"]
  ∧ whl_suffixes Demo.opts = []
  ∧ Demo.json_loads Demo.manylinux_settings = Some {[ "platform_tags" := ["manylinux"] ]}
  ∧ filter_with (Some Demo.manylinux_settings) = Some ["manylinux"]
  ∧ filter_with (Some "{") = None
  ∧ filter_with None = Some ["win_amd64"].
Proof. intros filter_with. repeat split; by vm_compute. Qed.

(** C9.  The index of the run is the mirror when the local zone is one of
    the two of line 146, and the [--index-url] value (its default being
    [https://pypi.org/simple]) otherwise; every command given to the
    resolver during the run names that index after [-i], and every project
    page requested is the page of a project under that index. *)
Theorem index_url_of_the_run
    (SETTINGS_FILE : string) (json_loads : string → option (gmap string (list string)))
    (zone getcwd : string) (parse_requirements : string → list string)
    (executable : string) (directory_path : nat → string)
    (pip : list string → Z * list string)
    (resolve_package_file : string → PythonPackage)
    (mkurl_pypi_url : string → string → string)
    (session_get : string → option string)
    (get_file_links : string → string → PythonPackage → list string)
    (o : options) (w : world) :
  let url := if bool_decide (zone ∈ ["Asia/Shanghai"; "Asia/Chongqing"])
             then "https://mirrors.aliyun.com/pypi/simple/" else index_url o in
  click_index_url None = "https://pypi.org/simple"
  ∧ run_index_url (prepare SETTINGS_FILE json_loads zone getcwd o w).1 = url
  ∧ index_used mkurl_pypi_url url w
      (pipdownload SETTINGS_FILE json_loads zone getcwd parse_requirements executable
         directory_path pip resolve_package_file mkurl_pypi_url session_get
         get_file_links o w).2.
Proof.
  intros url. split; [done|]. split; [apply prepare_index_url|].
  unfold pipdownload.
  pose proof (prepare_index_url SETTINGS_FILE json_loads zone getcwd o w) as Hurl.
  pose proof (prepare_effects SETTINGS_FILE json_loads zone getcwd o w) as (_ & Hc & Hg).
  destruct (prepare _ _ _ _ o w) as [r w1]. simpl in *.
  change (effective_index_url zone (index_url o)) with url in Hurl. rewrite <- Hurl.
  eapply index_used_trans; [by apply index_used_quiet | apply batch_index_used].
Qed.

(** ** The batch *)

Section Batch_claims.

Variable SETTINGS_FILE : string.
Variable json_loads : string → option (gmap string (list string)).
Variable zone : string.
Variable getcwd : string.
Variable parse_requirements : string → list string.
Variable executable : string.
Variable directory_path : nat → string.
Variable pip : list string → Z * list string.
Variable resolve_package_file : string → PythonPackage.
Variable mkurl_pypi_url : string → string → string.
Variable session_get : string → option string.
Variable get_file_links : string → string → PythonPackage → list string.

#[local] Abbreviation file_step r :=
  (materialized_file resolve_package_file mkurl_pypi_url session_get get_file_links r).
#[local] Abbreviation files_loop r :=
  (materialized_files resolve_package_file mkurl_pypi_url session_get get_file_links r).
#[local] Abbreviation batch_loop r :=
  (batch executable directory_path pip resolve_package_file mkurl_pypi_url
     session_get get_file_links r).
#[local] Abbreviation main :=
  (pipdownload SETTINGS_FILE json_loads zone getcwd parse_requirements executable
     directory_path pip resolve_package_file mkurl_pypi_url session_get get_file_links).

(** C3, amended.  In a run that ends normally the resolver is called for
    the requirements with their repetitions removed and then for the
    positional packages as given: a specifier is fetched once if it is among
    the requirements, plus once for each time it is given positionally. *)
Theorem batch_fetches_chain (o : options) (w w' : world) :
  main o w = (Normal, w') →
  let requirements := requirements_of parse_requirements (requirement_file o) in
  fetched w' = fetched w ++ chain_packages requirements (packages o)
  ∧ ∀ p, occurrences p (chain_packages requirements (packages o))
         = (if bool_decide (p ∈ requirements) then 1 else 0) + occurrences p (packages o).
Proof.
  intros Hrun requirements. split; [|intros p; apply occurrences_chain_packages].
  unfold pipdownload in Hrun.
  pose proof (prepare_effects SETTINGS_FILE json_loads zone getcwd o w) as (_ & Hc & _).
  destruct (prepare _ _ _ _ o w) as [r w1]. simpl in Hc.
  apply batch_fetched_normal in Hrun. rewrite Hrun. unfold fetched. by rewrite Hc.
Qed.

(** C6.  When the packages before [package] have been processed normally
    and the resolver exits with a nonzero status for [package], the batch
    ends by raising the [CalledProcessError] of that call, no later package
    is fetched, and the downloads are those made for the earlier packages:
    whatever was in the destination after any of them is still there. *)
Theorem resolver_failure_keeps_downloads (r : run) (pre post : list string)
    (package : string) (w w1 : world) :
  batch_loop r pre w = (Normal, w1) →
  let cmd := command executable r (directory_path (length (pip_calls w1))) package in
  (pip cmd).1 ≠ 0%Z →
  ∃ w2,
    batch_loop r (pre ++ package :: post) w = (Raised (CalledProcessError (pip cmd).1 cmd), w2)
    ∧ downloads w2 = downloads w1
    ∧ fetched w2 = fetched w ++ pre ++ [package]
    ∧ ∀ pre1 pre2 file, pre = pre1 ++ pre2 →
        file ∈ dest_files (run_dest_dir r) (batch_loop r pre1 w).2 →
        file ∈ dest_files (run_dest_dir r) w2.
Proof.
  intros Hpre cmd Hst.
  destruct (package_body_resolver_fails executable directory_path pip resolve_package_file
              mkurl_pypi_url session_get get_file_links r package w1 Hst)
    as (w2 & Hbody & Hd & Hc & _).
  exists w2. split; [|split; [done|split]].
  - rewrite batch_app, Hpre. simpl. by rewrite Hbody.
  - unfold fetched. rewrite Hc, omap_app. simpl.
    apply batch_fetched_normal in Hpre. unfold fetched in Hpre. by rewrite Hpre, <- app_assoc.
  - intros pre1 pre2 file -> Hfile. rewrite elem_of_dest_files in *. rewrite Hd.
    rewrite batch_app in Hpre.
    pose proof (batch_extends executable directory_path pip resolve_package_file
                  mkurl_pypi_url session_get get_file_links r pre2
                  (batch_loop r pre1 w).2) as Hext.
    destruct (batch_loop r pre1 w) as [[|e] v]; [|done]. simpl in *.
    rewrite Hpre in Hext. simpl in Hext.
    destruct (extends_downloads _ _ Hext) as [k ->]. apply elem_of_app. by left.
Qed.

(** C8.  A materialised file whose name [resolve_package_file] cannot
    resolve ([name] is [None]) costs one warning and nothing else: the step
    ends normally, and the files after it are processed as they would have
    been, whatever files came before it. *)
Theorem unresolved_file_is_skipped (r : run) (pre post : list string)
    (file_name : string) (w : world) :
  name (resolve_package_file file_name) = None →
  file_step r file_name w = (Normal, emit (Log WARNING unresolved_warning) w)
  ∧ files_loop r (pre ++ file_name :: post) w =
    match files_loop r pre w with
    | (Normal, w1) => files_loop r post (emit (Log WARNING unresolved_warning) w1)
    | (Raised e, w1) => (Raised e, w1)
    end.
Proof.
  intros Hname.
  assert (∀ v, file_step r file_name v = (Normal, emit (Log WARNING unresolved_warning) v))
    as Hstep.
  { intros v. unfold materialized_file. by rewrite Hname. }
  split; [apply Hstep|].
  rewrite materialized_files_app.
  destruct (files_loop r pre w) as [[|e] w1]; [|done]. simpl. by rewrite Hstep.
Qed.

(** Without [--python-version], [--platform-tag] and [--suffix], a run on a
    settings file that does not parse and the run on no settings file have
    both filters empty, end alike, and write, fetch and request the same;
    what they say is compared in [prepare_console_malformed].
    ([--show-config] creates a missing settings file empty, which does not
    parse either.) *)
Theorem malformed_settings_as_absent (o : options) (content : string) (w : world) :
  python_versions o = [] → platform_tags o = [] → whl_suffixes o = [] →
  json_loads content = None →
  show_config o = false ∨ json_loads "" = None →
  let bad := with_settings (Some content) w in
  let absent := with_settings None w in
  let r_bad := (prepare SETTINGS_FILE json_loads zone getcwd o bad).1 in
  let r_absent := (prepare SETTINGS_FILE json_loads zone getcwd o absent).1 in
  (truthy (run_platform_tags r_bad) = false ∧ truthy (run_python_versions r_bad) = false)
  ∧ (truthy (run_platform_tags r_absent) = false
     ∧ truthy (run_python_versions r_absent) = false)
  ∧ (main o bad).1 = (main o absent).1
  ∧ same_effects (main o bad).2 (main o absent).2.
Proof.
  intros Hv Hp Hs Hbad Hshow bad absent r_bad r_absent.
  pose proof (prepare_filters SETTINGS_FILE json_loads zone getcwd o bad) as [Fv1 Fp1].
  pose proof (prepare_filters SETTINGS_FILE json_loads zone getcwd o absent) as [Fv2 Fp2].
  fold r_bad in Fv1, Fp1. fold r_absent in Fv2, Fp2.
  rewrite effective_platform_tags, Hs in Fp1, Fp2.
  rewrite effective_python_versions, Hv in Fv1, Fv2.
  assert (read_settings json_loads (show_config_step SETTINGS_FILE o bad) = Some ∅) as R1.
  { unfold read_settings, show_config_step. destruct (show_config o); simpl; by rewrite Hbad. }
  assert (read_settings json_loads (show_config_step SETTINGS_FILE o absent) = None
          ∨ read_settings json_loads (show_config_step SETTINGS_FILE o absent) = Some ∅) as R2.
  { unfold read_settings, show_config_step. destruct Hshow as [->| Hempty]; [by left|].
    destruct (show_config o); simpl; [right; by rewrite Hempty | by left]. }
  rewrite R1 in Fv1, Fp1. rewrite lookup_empty in Fv1, Fp1.
  assert ((truthy (run_platform_tags r_absent) = false
           ∧ truthy (run_python_versions r_absent) = false)) as Habsent.
  { destruct R2 as [R2|R2]; rewrite R2 in Fv2, Fp2.
    - by rewrite Fv2, Fp2, Hp.
    - rewrite lookup_empty in Fv2, Fp2. by rewrite Fv2, Fp2. }
  assert (truthy (run_platform_tags r_bad) = false
          ∧ truthy (run_python_versions r_bad) = false) as Hbadf by by rewrite Fv1, Fp1.
  split; [done|]. split; [done|].
  unfold pipdownload.
  pose proof (prepare_effects SETTINGS_FILE json_loads zone getcwd o bad) as (Hd1 & Hc1 & Hg1).
  pose proof (prepare_effects SETTINGS_FILE json_loads zone getcwd o absent) as (Hd2 & Hc2 & Hg2).
  pose proof (prepare_index_url SETTINGS_FILE json_loads zone getcwd o bad) as Hu1.
  pose proof (prepare_index_url SETTINGS_FILE json_loads zone getcwd o absent) as Hu2.
  pose proof (prepare_rest SETTINGS_FILE json_loads zone getcwd o bad) as (Hdd1 & Hq1 & Hn1).
  pose proof (prepare_rest SETTINGS_FILE json_loads zone getcwd o absent) as (Hdd2 & Hq2 & Hn2).
  subst r_bad r_absent.
  destruct (prepare _ _ _ _ o bad) as [r1 w1], (prepare _ _ _ _ o absent) as [r2 w2].
  simpl in *.
  apply batch_sim; [congruence .. | |].
  - intros file_name file. destruct Hbadf, Habsent. by rewrite !is_eligible_unconstrained.
  - repeat split; congruence.
Qed.

End Batch_claims.

(** C3 as stated fails: [foo] is both a requirement and a positional
    package, the run ends normally, and the resolver is called twice for
    it. *)
Lemma fetched_twice_counterexample :
  let result := Demo.go Demo.both_ways "Europe/Paris" (Demo.start None) in
  "foo" ∈ Demo.parse_requirements "requirements.txt"
  ∧ "foo" ∈ packages Demo.both_ways
  ∧ result.1 = Normal
  ∧ occurrences "foo" (fetched result.2) = 2.
Proof.
  intros result. repeat split; try (by vm_compute).
  - refine (bool_decide_unpack _ _). vm_compute. exact I.
  - refine (bool_decide_unpack _ _). vm_compute. exact I.
Qed.

Lemma batch_fetches_chain_witness :
  let result := Demo.go Demo.both_ways "Europe/Paris" (Demo.start None) in
  result.1 = Normal
  ∧ occurrences "foo" (chain_packages ["bar"; "foo"] ["foo"]) = 1 + 1.
Proof.
  intros result. split; [by vm_compute|].
  destruct (batch_fetches_chain "settings.json" Demo.json_loads "Europe/Paris" "/cwd"
              Demo.parse_requirements "python" (λ n, "/tmp/d") Demo.pip
              Demo.resolve_package_file Demo.mkurl_pypi_url Demo.session_get
              Demo.get_file_links Demo.both_ways (Demo.start None) result.2)
    as [_ H].
  - by vm_compute.
  - exact (H "foo").
Defined.

Lemma resolver_failure_keeps_downloads_witness :
  ∃ e w2,
    Demo.batch_of Demo.wheels ["foo"; "nope"; "bar"] (Demo.start None)
    = (Raised e, w2)
    ∧ downloads w2
      = downloads (Demo.batch_of Demo.wheels ["foo"] (Demo.start None)).2.
Proof.
  destruct (resolver_failure_keeps_downloads "python" (λ n, "/tmp/d") Demo.pip
              Demo.resolve_package_file Demo.mkurl_pypi_url Demo.session_get
              Demo.get_file_links Demo.wheels ["foo"] ["bar"] "nope"
              (Demo.start None)
              (Demo.batch_of Demo.wheels ["foo"] (Demo.start None)).2)
    as (w2 & Hrun & Hd & _).
  - by vm_compute.
  - by vm_compute.
  - eexists _, w2. split; [exact Hrun | exact Hd].
Defined.

Lemma unresolved_file_is_skipped_witness :
  name (Demo.resolve_package_file "README") = None
  ∧ materialized_file Demo.resolve_package_file Demo.mkurl_pypi_url Demo.session_get
      Demo.get_file_links Demo.wheels "README" (Demo.start None)
    = (Normal, emit (Log WARNING unresolved_warning) (Demo.start None)).
Proof.
  split; [reflexivity|].
  apply (unresolved_file_is_skipped Demo.resolve_package_file Demo.mkurl_pypi_url
           Demo.session_get Demo.get_file_links Demo.wheels [] [] "README").
  reflexivity.
Defined.

Lemma malformed_settings_as_absent_witness :
  Demo.json_loads "{" = None
  ∧ (Demo.go Demo.no_filter "Europe/Paris" (with_settings (Some "{") (Demo.start None))).1
    = (Demo.go Demo.no_filter "Europe/Paris" (with_settings None (Demo.start None))).1.
Proof.
  split; [reflexivity|].
  apply (malformed_settings_as_absent "settings.json" Demo.json_loads "Europe/Paris" "/cwd"
           Demo.parse_requirements "python" (λ n, "/tmp/d") Demo.pip
           Demo.resolve_package_file Demo.mkurl_pypi_url Demo.session_get
           Demo.get_file_links Demo.no_filter "{" (Demo.start None));
    try reflexivity.
  by left.
Defined.

(** C7 (evaluation of the code where it departs from the claim).  With no
    filter option, a settings file holding [{], which does not parse, and a
    run with no settings file: the filters are empty in both, the runs end
    alike and download the same, and no exception leaves the reading of the
    settings; but the first run echoes the two lines of 138 and 143, which
    say that the settings' values are used when the settings gave none, and
    the second echoes nothing. *)
Theorem malformed_settings_echo :
  let prepared settings :=
    prepare "settings.json" Demo.json_loads "Europe/Paris" "/cwd" Demo.plain
      (Demo.start settings) in
  let bad := Demo.go Demo.plain "Europe/Paris" (Demo.start (Some "{")) in
  let absent := Demo.go Demo.plain "Europe/Paris" (Demo.start None) in
  Demo.json_loads "{" = None
  ∧ (python_versions Demo.plain = [] ∧ platform_tags Demo.plain = []
     ∧ whl_suffixes Demo.plain = [])
  ∧ (truthy (run_platform_tags (prepared (Some "{")).1) = false
     ∧ truthy (run_python_versions (prepared (Some "{")).1) = false)
  ∧ bad.1 = absent.1
  ∧ downloads bad.2 = downloads absent.2
  ∧ console bad.2
    = Echo "Using `python_versions` in config file."
      :: Echo "Using `platform_tags` in config file." :: console absent.2
  ∧ (∀ text, Echo text ∉ console absent.2).
Proof.
  intros prepared bad absent. repeat split; try (by vm_compute).
  intros text Hin. vm_compute in Hin.
  repeat (apply elem_of_cons in Hin as [Hin|Hin]; [discriminate Hin|]).
  by apply elem_of_nil in Hin.
Qed.

(** * Further properties of the command *)

(** ** The filters of the run *)

Section Filter_sources.

Variable SETTINGS_FILE : string.
Variable json_loads : string → option (gmap string (list string)).
Variable zone : string.
Variable getcwd : string.

#[local] Abbreviation prepared := (prepare SETTINGS_FILE json_loads zone getcwd).

(** X1.  When [--python-version] is given, the version filter of the run is
    exactly the values given, whatever the settings file holds, whether it
    exists, parses or has the key. *)
Theorem python_version_option_wins (o : options) (w : world) :
  python_versions o ≠ [] →
  run_python_versions (prepared o w).1 = Some (python_versions o).
Proof.
  intros Hgiven.
  destruct (prepare_filters SETTINGS_FILE json_loads zone getcwd o w) as [-> _].
  rewrite effective_python_versions.
  by destruct (python_versions o) as [|v vs].
Qed.

(** X2.  When [--suffix] is given, the platform filter of the run is
    exactly the suffixes, whatever [--platform-tag] and the settings file
    hold, and the deprecation warning is issued. *)
Theorem suffix_option_overrides (o : options) (w : world) :
  whl_suffixes o ≠ [] →
  run_platform_tags (prepared o w).1 = Some (whl_suffixes o)
  ∧ Warn "Option '-s/--suffix' has been deprecated. Please use '-p/--platform-tag' instead."
    ∈ console (prepared o w).2.
Proof.
  intros Hgiven. split.
  - destruct (prepare_filters SETTINGS_FILE json_loads zone getcwd o w) as [_ ->].
    rewrite effective_platform_tags. by destruct (whl_suffixes o).
  - rewrite prepare_console. unfold suffix_override.
    destruct (whl_suffixes o) as [|s ss]; [done|]. simpl.
    rewrite !elem_of_app. right. right. right. apply list_elem_of_here.
Qed.

(** X3.  Without a settings file (and without [--show-config], which would
    create one) the filters of the run are the command line's: the versions
    given, and the platform tags given, or the suffixes when there are
    some; nothing is echoed about the settings. *)
Theorem filters_without_settings_file (o : options) (w : world) :
  settings_file w = None → show_config o = false →
  run_python_versions (prepared o w).1 = Some (python_versions o)
  ∧ run_platform_tags (prepared o w).1
    = Some (match whl_suffixes o with [] => platform_tags o | _ => whl_suffixes o end)
  ∧ ∀ text, Echo text ∈ console (prepared o w).2 → Echo text ∈ console w.
Proof.
  intros Hnone Hshow.
  assert (show_config_step SETTINGS_FILE o w = w) as Hstep
    by (unfold show_config_step; by rewrite Hshow).
  assert (read_settings json_loads w = None) as Hread
    by (unfold read_settings; by rewrite Hnone).
  destruct (prepare_filters SETTINGS_FILE json_loads zone getcwd o w) as [Hv Hp].
  rewrite Hstep, Hread in Hv, Hp.
  rewrite effective_python_versions in Hv. rewrite effective_platform_tags in Hp.
  split; [|split].
  - rewrite Hv. by destruct (python_versions o).
  - rewrite Hp. by destruct (whl_suffixes o).
  - intros text. rewrite prepare_console, Hstep, Hread. simpl.
    unfold suffix_override. rewrite !elem_of_app.
    intros [H|[H|H]]; [done| |].
    + destruct (truthy (Some (whl_suffixes o))); [|by apply elem_of_nil in H].
      apply list_elem_of_singleton in H. discriminate H.
    + destruct (quiet o); [|by apply elem_of_nil in H].
      apply list_elem_of_singleton in H. discriminate H.
Qed.

(** X4.  With a settings file that parses and no filter option on the
    command line, the filters of the run are the values of the keys
    [python_versions] and [platform_tags] of the settings, and a missing key
    leaves its axis unconstrained. *)
Theorem settings_are_defaults (o : options) (content : string)
    (d : gmap string (list string)) (w : world) :
  settings_file w = Some content → json_loads content = Some d →
  python_versions o = [] → platform_tags o = [] → whl_suffixes o = [] →
  run_python_versions (prepared o w).1 = d !! "python_versions"
  ∧ run_platform_tags (prepared o w).1 = d !! "platform_tags"
  ∧ (d !! "python_versions" = None → truthy (run_python_versions (prepared o w).1) = false)
  ∧ (d !! "platform_tags" = None → truthy (run_platform_tags (prepared o w).1) = false).
Proof.
  intros Hfile Hjson Hv Hp Hs.
  assert (read_settings json_loads (show_config_step SETTINGS_FILE o w) = Some d) as Hread.
  { unfold read_settings, show_config_step. rewrite Hfile.
    destruct (show_config o); simpl; rewrite ?Hfile; simpl; by rewrite Hjson. }
  destruct (prepare_filters SETTINGS_FILE json_loads zone getcwd o w) as [Fv Fp].
  rewrite Hread in Fv, Fp.
  rewrite effective_python_versions, Hv in Fv. rewrite effective_platform_tags, Hs in Fp.
  rewrite Fv, Fp. repeat split; by intros ->.
Qed.

End Filter_sources.

Lemma python_version_option_wins_witness :
  run_python_versions
    (prepare "settings.json" Demo.json_loads_versions "Europe/Paris" "/cwd" Demo.all_flags
       (Demo.start (Some Demo.cp38_settings))).1 = Some ["cp39"].
Proof.
  apply (python_version_option_wins "settings.json" Demo.json_loads_versions
           "Europe/Paris" "/cwd" Demo.all_flags). discriminate.
Defined.

Lemma suffix_option_overrides_witness :
  run_platform_tags
    (prepare "settings.json" Demo.json_loads "Europe/Paris" "/cwd" Demo.all_flags
       (Demo.start (Some Demo.manylinux_settings))).1 = Some ["win32"].
Proof.
  apply (suffix_option_overrides "settings.json" Demo.json_loads "Europe/Paris" "/cwd"
           Demo.all_flags). discriminate.
Defined.

Lemma filters_without_settings_file_witness :
  run_platform_tags
    (prepare "settings.json" Demo.json_loads "Europe/Paris" "/cwd" Demo.opts
       (Demo.start None)).1 = Some ["win_amd64"].
Proof.
  apply (filters_without_settings_file "settings.json" Demo.json_loads "Europe/Paris"
           "/cwd" Demo.opts (Demo.start None)); reflexivity.
Defined.

Lemma settings_are_defaults_witness :
  run_platform_tags
    (prepare "settings.json" Demo.json_loads "Europe/Paris" "/cwd" Demo.no_filter
       (Demo.start (Some Demo.manylinux_settings))).1 = Some ["manylinux"]
  ∧ truthy (run_python_versions
      (prepare "settings.json" Demo.json_loads "Europe/Paris" "/cwd" Demo.no_filter
         (Demo.start (Some Demo.manylinux_settings))).1) = false.
Proof.
  destruct (settings_are_defaults "settings.json" Demo.json_loads "Europe/Paris" "/cwd"
              Demo.no_filter Demo.manylinux_settings
              {[ "platform_tags" := ["manylinux"] ]}
              (Demo.start (Some Demo.manylinux_settings)))
    as (_ & Hp & Hv & _); try reflexivity.
  split; [exact Hp | apply Hv; reflexivity].
Defined.

(** ** The tags of a filter *)

(** The three tests of lines 216-249, side by side. *)
Lemma is_eligible_cases (file_name file : string) (ns : bool) (pt pv : tags) :
  is_eligible file_name file ns pt pv
  = str_in "none-any" file || source_rule file_name ns
    || (axis_ok pt file && axis_ok pv file).
Proof.
  unfold is_eligible.
  destruct (str_in "none-any" file); [done|].
  destruct (source_rule file_name ns); [done|]. apply tag_filter_axes.
Qed.

Lemma truthy_false_items (v : tags) : truthy v = false ↔ items v = [].
Proof. by destruct v as [[|]|]. Qed.

Lemma matches_spec (v : tags) (file : string) :
  matches v file = true ↔ ∃ tag, tag ∈ items v ∧ str_in tag file = true.
Proof.
  unfold matches. rewrite existsb_exists.
  split; intros [tag [Hin Htag]]; exists tag; split; try done; by apply list_elem_of_In.
Qed.

(** An axis passes when it has no tag, or one of its tags occurs in the
    file. *)
Lemma axis_ok_spec (v : tags) (file : string) :
  axis_ok v file = true ↔ items v = [] ∨ ∃ tag, tag ∈ items v ∧ str_in tag file = true.
Proof.
  unfold axis_ok. rewrite orb_true_iff, negb_true_iff, truthy_false_items, matches_spec.
  done.
Qed.

Lemma axis_ok_widen (v v' : tags) (file : string) :
  truthy v' = false ∨ (truthy v = true ∧ items v ⊆ items v') →
  axis_ok v file = true → axis_ok v' file = true.
Proof.
  rewrite !axis_ok_spec. intros [Hoff|[Hon Hsub]] Hok.
  - left. by apply truthy_false_items.
  - destruct Hok as [Hnil|(tag & Hin & Htag)].
    + apply truthy_false_items in Hnil. congruence.
    + right. exists tag. split; [by apply Hsub | done].
Qed.

Lemma items_nil_same (v v' : tags) :
  (∀ tag, tag ∈ items v ↔ tag ∈ items v') → items v = [] → items v' = [].
Proof.
  intros Hsame Hnil. destruct (items v') as [|t l] eqn:Hv'; [done|].
  assert (t ∈ items v) as Ht by (apply Hsame; apply list_elem_of_here).
  rewrite Hnil in Ht. by apply elem_of_nil in Ht.
Qed.

(** An axis looks at its tags as a set. *)
Lemma axis_ok_same_tags (v v' : tags) (file : string) :
  (∀ tag, tag ∈ items v ↔ tag ∈ items v') → axis_ok v file = axis_ok v' file.
Proof.
  intros Hsame. apply Bool.eq_true_iff_eq. rewrite !axis_ok_spec. split.
  - intros [Hnil|(tag & Hin & Htag)].
    + left. by apply (items_nil_same v v').
    + right. exists tag. split; [by apply Hsame | done].
  - intros [Hnil|(tag & Hin & Htag)].
    + left. apply (items_nil_same v' v); [|done]. intros tag. by rewrite Hsame.
    + right. exists tag. split; [by apply Hsame | done].
Qed.

(** X5.  The decision looks at each filter as a set of tags: the order in
    which tags are given and their repetition make no difference, and
    [None], [()] and [[]] are the same empty filter. *)
Theorem filter_is_a_set (file_name file : string) (no_source : bool)
    (pt pt' pv pv' : tags) :
  (∀ tag, tag ∈ items pt ↔ tag ∈ items pt') →
  (∀ tag, tag ∈ items pv ↔ tag ∈ items pv') →
  is_eligible file_name file no_source pt pv = is_eligible file_name file no_source pt' pv'.
Proof.
  intros Hp Hv. rewrite !is_eligible_cases.
  by rewrite (axis_ok_same_tags pt pt'), (axis_ok_same_tags pv pv').
Qed.

Lemma filter_is_a_set_witness :
  is_eligible "foo-1.0.zip" "foo-1.0-cp39-cp39-win32.whl" true
    (Some ["win32"; "win_amd64"; "win32"]) None
  = is_eligible "foo-1.0.zip" "foo-1.0-cp39-cp39-win32.whl" true
      (Some ["win_amd64"; "win32"]) (Some []).
Proof.
  apply filter_is_a_set; intros tag; simpl.
  - rewrite !elem_of_cons. tauto.
  - done.
Defined.

(** X6.  Dropping a filter, or adding tags to a filter that is set, never
    rejects a candidate that was accepted. *)
Theorem wider_filter_accepts_more (file_name file : string) (no_source : bool)
    (pt pt' pv pv' : tags) :
  truthy pt' = false ∨ (truthy pt = true ∧ items pt ⊆ items pt') →
  truthy pv' = false ∨ (truthy pv = true ∧ items pv ⊆ items pv') →
  is_eligible file_name file no_source pt pv = true →
  is_eligible file_name file no_source pt' pv' = true.
Proof.
  intros Hp Hv. rewrite !is_eligible_cases, !orb_true_iff, !andb_true_iff.
  intros [Hfirst|[Hap Hav]]; [by left|]. right.
  split; [by apply (axis_ok_widen pt) | by apply (axis_ok_widen pv)].
Qed.

Lemma wider_filter_accepts_more_witness :
  is_eligible "foo-1.0.zip" "foo-1.0-cp39-cp39-win32.whl" true
    (Some ["manylinux"; "win32"]) None = true.
Proof.
  apply (wider_filter_accepts_more "foo-1.0.zip" "foo-1.0-cp39-cp39-win32.whl" true
           (Some ["win32"]) _ (Some ["cp39"]) _).
  - right. split; [reflexivity|]. intros tag Htag. by apply list_elem_of_further.
  - by left.
  - reflexivity.
Defined.

(** X7.  A filter that holds the empty string constrains nothing: the
    empty string occurs in every file name, so the decision is the one taken
    without that filter. *)
Theorem empty_tag_matches_everything (file_name file : string) (no_source : bool)
    (pt pv : tags) :
  ("" ∈ items pt →
   is_eligible file_name file no_source pt pv = is_eligible file_name file no_source None pv)
  ∧ ("" ∈ items pv →
     is_eligible file_name file no_source pt pv
     = is_eligible file_name file no_source pt None).
Proof.
  assert (∀ v, "" ∈ items v → axis_ok v file = true) as Hall.
  { intros v Hin. apply axis_ok_spec. right. exists "". split; [done|].
    apply str_in_spec. by exists "", file. }
  split; intros Hin; rewrite !is_eligible_cases, (Hall _ Hin); reflexivity.
Qed.

Lemma empty_tag_matches_everything_witness :
  is_eligible "foo-1.0.zip" "foo-1.0-cp39-cp39-win32.whl" true (Some ["linux"; ""]) None
  = is_eligible "foo-1.0.zip" "foo-1.0-cp39-cp39-win32.whl" true None None.
Proof.
  apply (proj1 (empty_tag_matches_everything "foo-1.0.zip" "foo-1.0-cp39-cp39-win32.whl"
                  true (Some ["linux"; ""]) None)).
  apply list_elem_of_further, list_elem_of_here.
Defined.

(** ** The run as a whole *)

Section Run_facts.

Variable SETTINGS_FILE : string.
Variable json_loads : string → option (gmap string (list string)).
Variable zone : string.
Variable getcwd : string.
Variable parse_requirements : string → list string.
Variable executable : string.
Variable directory_path : nat → string.
Variable pip : list string → Z * list string.
Variable resolve_package_file : string → PythonPackage.
Variable mkurl_pypi_url : string → string → string.
Variable session_get : string → option string.
Variable get_file_links : string → string → PythonPackage → list string.

#[local] Abbreviation file_step r :=
  (materialized_file resolve_package_file mkurl_pypi_url session_get get_file_links r).
#[local] Abbreviation files_loop r :=
  (materialized_files resolve_package_file mkurl_pypi_url session_get get_file_links r).
#[local] Abbreviation package_step r :=
  (package_body executable directory_path pip resolve_package_file mkurl_pypi_url
     session_get get_file_links r).
#[local] Abbreviation batch_loop r :=
  (batch executable directory_path pip resolve_package_file mkurl_pypi_url
     session_get get_file_links r).
#[local] Abbreviation prepared := (prepare SETTINGS_FILE json_loads zone getcwd).
#[local] Abbreviation main :=
  (pipdownload SETTINGS_FILE json_loads zone getcwd parse_requirements executable
     directory_path pip resolve_package_file mkurl_pypi_url session_get get_file_links).

Lemma prepare_settings_file (o : options) (w : world) :
  settings_file (prepared o w).2 = settings_file (show_config_step SETTINGS_FILE o w).
Proof.
  unfold prepare.
  destruct (settings_python_versions _ _) as [versions said_v].
  destruct (settings_platform_tags _ _ _) as [platform said_p].
  destruct (suffix_override _ _) as [platform' said_s]. simpl.
  by rewrite emits_spec.
Qed.

(** X8.  The run never alters a settings file that exists, and creates a
    missing one, empty, only under [--show-config]; this holds whether the
    run ends normally or raises. *)
Theorem settings_file_after_run (o : options) (w : world) :
  settings_file (main o w).2 =
  match settings_file w with
  | Some content => Some content
  | None => if show_config o then Some "" else None
  end.
Proof.
  unfold pipdownload.
  pose proof (prepare_settings_file o w) as Hprep.
  destruct (prepared o w) as [r w1]. simpl in Hprep.
  rewrite (extends_settings _ _ (batch_extends executable directory_path pip
             resolve_package_file mkurl_pypi_url session_get get_file_links r _ w1)).
  rewrite Hprep. unfold show_config_step.
  destruct (show_config o), (settings_file w) eqn:Hfile; simpl; by rewrite ?Hfile.
Qed.

(** X9.  With no positional package and no requirement, the run ends
    normally without calling the resolver, requesting a page or writing a
    file. *)
Theorem empty_batch_does_nothing (o : options) (w : world) :
  packages o = [] →
  requirements_of parse_requirements (requirement_file o) = [] →
  (main o w).1 = Normal ∧ same_effects (main o w).2 w.
Proof.
  intros Hpos Hreq. unfold pipdownload.
  pose proof (prepare_effects SETTINGS_FILE json_loads zone getcwd o w) as Heff.
  destruct (prepared o w) as [r w1]. simpl in Heff.
  rewrite Hpos, Hreq. unfold chain_packages, packages_extra. simpl.
  by rewrite elements_empty.
Qed.

Lemma filter_written (dest : string) (files : list string) :
  (filter (λ d : string * string, d.2 = dest) ((λ file, (file, dest)) <$> files)).*1
  = files.
Proof.
  induction files as [|f files IH]; [done|].
  rewrite fmap_cons, filter_cons, decide_True by done.
  rewrite fmap_cons. simpl. by rewrite IH.
Qed.

Lemma dest_files_written (dest : string) (files : list string) (w : world) :
  dest_files dest
    (World (settings_file w) (downloads w ++ ((λ file, (file, dest)) <$> files))
       (pip_calls w) (page_gets w) (console w))
  = dest_files dest w ++ files.
Proof.
  unfold dest_files. simpl. by rewrite filter_app, fmap_app, filter_written.
Qed.

(** X10.  When the name of a materialised file resolves and [session.get]
    returns its project page, the step ends normally, requests that one
    page, and downloads exactly the eligible ones among the links that
    [get_file_links] returns, in the order the loop of line 214 visits them
    and as often as it visits them; it makes no logger record, and what it
    writes is the progress of each download, nothing under [--quiet]. *)
Theorem eligible_links_downloaded (r : run) (file_name project text : string) (w : world) :
  name (resolve_package_file file_name) = Some project →
  session_get (mkurl_pypi_url (run_index_url r) project) = Some text →
  let url := mkurl_pypi_url (run_index_url r) project in
  let taken := eligible_files r file_name
                 (get_file_links text url (resolve_package_file file_name)) in
  let w' := (file_step r file_name w).2 in
  (file_step r file_name w).1 = Normal
  ∧ dest_files (run_dest_dir r) w' = dest_files (run_dest_dir r) w ++ taken
  ∧ page_gets w' = page_gets w ++ [url]
  ∧ pip_calls w' = pip_calls w
  ∧ console w' = console w ++ (if run_quiet r then [] else Progress <$> taken).
Proof.
  intros Hname Hget url taken w'. subst url taken w'. unfold materialized_file.
  rewrite Hname. simpl. rewrite Hget. simpl. rewrite candidates_spec. simpl.
  repeat split; try done.
  apply (dest_files_written (run_dest_dir r) _
           (World (settings_file w) (downloads w) (pip_calls w)
              (page_gets w ++ [mkurl_pypi_url (run_index_url r) project])
              (console w ++ (if run_quiet r then []
                             else Progress <$> eligible_files r file_name
                                    (get_file_links text
                                       (mkurl_pypi_url (run_index_url r) project)
                                       (resolve_package_file file_name)))))).
Qed.

(** X11.  When [session.get] raises [ConnectionError] for the page of a
    materialised file, the loop over the files is left with that exception
    after two error records; the files after it are not looked at, and what
    the files before it wrote stays written. *)
Theorem unreachable_index_raises (r : run) (pre post : list string)
    (file_name project : string) (w w1 : world) :
  files_loop r pre w = (Normal, w1) →
  name (resolve_package_file file_name) = Some project →
  session_get (mkurl_pypi_url (run_index_url r) project) = None →
  let url := mkurl_pypi_url (run_index_url r) project in
  ∃ w2,
    files_loop r (pre ++ file_name :: post) w = (Raised (ConnectionError url), w2)
    ∧ downloads w2 = downloads w1
    ∧ page_gets w2 = page_gets w1 ++ [url]
    ∧ console w2 = console w1
        ++ [Log ERROR ("Can not get information about package " +:+ project
                       +:+ ", and the Exception is below.");
            LogExn ERROR (ConnectionError url)].
Proof.
  intros Hpre Hname Hget url. subst url. eexists. split.
  - rewrite materialized_files_app, Hpre. simpl. unfold materialized_file.
    rewrite Hname. simpl. rewrite Hget. reflexivity.
  - simpl. by rewrite <- app_assoc.
Qed.

(** The files of a package raise nothing but the [ConnectionError] of the
    page last requested, recorded last. *)
Lemma materialized_files_raised (r : run) (file_names : list string) (w w' : world)
    (e : exn) :
  files_loop r file_names w = (Raised e, w') →
  last (console w') = Some (LogExn ERROR e)
  ∧ ∃ url, e = ConnectionError url ∧ last (page_gets w') = Some url
           ∧ session_get url = None.
Proof.
  revert w. induction file_names as [|f rest IH]; intros w; simpl; [done|].
  destruct (file_step r f w) as [[|e0] w0] eqn:Hstep; [apply IH|].
  intros [= -> ->]. unfold materialized_file in Hstep.
  destruct (name _) as [project|]; [|done].
  destruct (session_get _) eqn:Hget; [done|].
  injection Hstep as <- <-. simpl. rewrite !last_snoc. eauto.
Qed.

Lemma package_body_raised (r : run) (package : string) (w w' : world) (e : exn) :
  package_step r package w = (Raised e, w') →
  last (console w') = Some (LogExn ERROR e)
  ∧ match e with
    | CalledProcessError status cmd =>
        status ≠ 0%Z ∧ last (pip_calls w') = Some cmd ∧ (pip cmd).1 = status
    | ConnectionError url => last (page_gets w') = Some url ∧ session_get url = None
    end.
Proof.
  unfold package_body.
  destruct (pip _) as [status file_names] eqn:Hpip.
  case_bool_decide as Hst.
  - destruct (files_loop r file_names _) as [[|e0] w0] eqn:Hfiles; [done|].
    intros [= -> ->].
    apply materialized_files_raised in Hfiles as (Hlast & url & -> & Hpage & Hget). eauto.
  - intros [= <- <-]. simpl. rewrite !last_snoc. by rewrite Hpip.
Qed.

Lemma package_body_normal (r : run) (package : string) (w w' : world) :
  package_step r package w = (Normal, w') →
  last (console w') = Some (Log INFO "All packages have been downloaded successfully!").
Proof.
  unfold package_body.
  destruct (pip _) as [status file_names].
  case_bool_decide as Hst; [|done].
  destruct (files_loop r file_names _) as [[|e0] w0]; [|done].
  intros [= <-]. simpl. by rewrite last_snoc.
Qed.

(** X12.  A batch that ends with the [CalledProcessError] of a resolver
    call has recorded it at level ERROR as the last thing it wrote; the
    status of that call was not 0 and its command is the last one given to
    the resolver.  A batch that ends with the built-in [ConnectionError]
    that line 251 catches has recorded it last, and it is the one of the last
    page requested.  A batch of at least one package that ends normally has
    recorded the success line last.  (Exceptions of other classes are caught
    neither at line 194 nor at line 251, and are outside the model.) *)
Theorem batch_ending (r : run) (pkgs : list string) (w : world) :
  let out := (batch_loop r pkgs w).1 in
  let w' := (batch_loop r pkgs w).2 in
  (∀ status cmd, out = Raised (CalledProcessError status cmd) →
     status ≠ 0%Z ∧ (pip cmd).1 = status ∧ last (pip_calls w') = Some cmd
     ∧ last (console w') = Some (LogExn ERROR (CalledProcessError status cmd)))
  ∧ (∀ url, out = Raised (ConnectionError url) →
       session_get url = None ∧ last (page_gets w') = Some url
       ∧ last (console w') = Some (LogExn ERROR (ConnectionError url)))
  ∧ (out = Normal → pkgs ≠ [] →
     last (console w') = Some (Log INFO "All packages have been downloaded successfully!")).
Proof.
  simpl.
  assert (match (batch_loop r pkgs w).1 with
          | Raised e =>
              last (console (batch_loop r pkgs w).2) = Some (LogExn ERROR e)
              ∧ match e with
                | CalledProcessError status cmd =>
                    status ≠ 0%Z ∧ last (pip_calls (batch_loop r pkgs w).2) = Some cmd
                    ∧ (pip cmd).1 = status
                | ConnectionError url =>
                    last (page_gets (batch_loop r pkgs w).2) = Some url
                    ∧ session_get url = None
                end
          | Normal =>
              pkgs = []
              ∨ last (console (batch_loop r pkgs w).2)
                = Some (Log INFO "All packages have been downloaded successfully!")
          end) as Hend.
  { revert w. induction pkgs as [|p rest IH]; intros w; simpl; [by left|].
    destruct (package_step r p w) as [[|e] w1] eqn:Hstep; simpl.
    - specialize (IH w1).
      destruct (batch_loop r rest w1) as [[|e] w2] eqn:Hrest; simpl in *; [|done].
      right. destruct IH as [->|IH]; [|done].
      simpl in Hrest. injection Hrest as <-. by apply package_body_normal in Hstep.
    - by apply package_body_raised in Hstep. }
  destruct (batch_loop r pkgs w) as [[|e] w']; simpl in *.
  - split; [done|]. split; [done|]. intros _ Hne. by destruct Hend.
  - split; [|split; [|done]].
    + intros status cmd [= ->]. by destruct Hend as (? & ? & ? & ?).
    + intros url [= ->]. by destruct Hend as (? & ? & ?).
Qed.

(** The commands [cmds] are the pip download commands for the packages
    [pkgs], one each and in order, with the index of the run after [-i] and,
    under [--quiet] only, the three quiet flags at the end. *)
#[local] Abbreviation commands_for r cmds pkgs :=
  (Forall2 (λ (cmd : list string) (package : string), ∃ directory,
              cmd = [executable; "-m"; "pip"; "download"; "-i"; run_index_url r;
                     "--dest"; directory; package]
                    ++ (if run_quiet r then ["--progress-bar"; "off"; "-qqq"] else []))
     cmds pkgs).

(** X13.  The resolver is called once for each package of the batch, in
    batch order, when the batch ends normally.  When it raises, the batch
    splits into the packages processed normally, the package whose
    processing raised, and the packages after it: the resolver was called
    once for each of the first and for the second, and for none of the
    last.  Each call is the pip download command for its package, with the
    index of the run after [-i] and, under [--quiet] only, the three quiet
    flags at the end. *)
Theorem resolver_calls_follow_batch (r : run) (pkgs : list string) (w : world) :
  ∃ cmds,
    pip_calls (batch_loop r pkgs w).2 = pip_calls w ++ cmds
    ∧ match (batch_loop r pkgs w).1 with
      | Normal => commands_for r cmds pkgs
      | Raised e =>
          ∃ before package after,
            pkgs = before ++ package :: after
            ∧ (batch_loop r before w).1 = Normal
            ∧ (package_step r package (batch_loop r before w).2).1 = Raised e
            ∧ commands_for r cmds (before ++ [package])
      end.
Proof.
  revert w. induction pkgs as [|p rest IH]; intros w; simpl.
  - exists []. rewrite app_nil_r. split; [done | constructor].
  - pose proof (package_body_pip_calls executable directory_path pip resolve_package_file
                  mkurl_pypi_url session_get get_file_links r p w) as Hcall.
    destruct (package_step r p w) as [[|e] w1] eqn:Hstep; simpl in *.
    + destruct (IH w1) as (cmds & Hcmds & Hshape).
      exists (command executable r (directory_path (length (pip_calls w))) p :: cmds).
      rewrite Hcmds, Hcall, <- app_assoc. split; [done|].
      destruct (batch_loop r rest w1) as [[|e] w2]; simpl in *.
      * constructor; [by eexists | done].
      * destruct Hshape as (before & package & after & -> & Hbefore & Hraise & Hshape).
        exists (p :: before), package, after. simpl. rewrite Hstep.
        split; [done|]. split; [done|]. split; [done|].
        constructor; [by eexists | done].
    + exists [command executable r (directory_path (length (pip_calls w))) p].
      split; [done|]. exists [], p, rest. simpl. rewrite Hstep.
      split; [done|]. split; [done|]. split; [done|].
      constructor; [by eexists | constructor].
Qed.

Lemma materialized_file_page (r : run) (file_name : string) (w : world) :
  page_gets (file_step r file_name w).2
  = page_gets w
    ++ option_list (page_of resolve_package_file mkurl_pypi_url r file_name).
Proof.
  unfold materialized_file, page_of.
  destruct (name _) as [project|]; simpl; [|by rewrite app_nil_r].
  destruct (session_get _); simpl; [by rewrite candidates_spec | done].
Qed.

(** X14.  When the loop over the materialised files ends normally, one
    project page was requested for each file whose name resolves, in listing
    order, and none for a file whose name does not resolve.  When it raises,
    the listing splits into the files processed normally, the file whose
    page could not be obtained, and the files after it: pages were requested
    for the first and for the second, and for none of the last. *)
Theorem pages_follow_files (r : run) (file_names : list string) (w : world) :
  match (files_loop r file_names w).1 with
  | Normal =>
      page_gets (files_loop r file_names w).2
      = page_gets w ++ omap (page_of resolve_package_file mkurl_pypi_url r) file_names
  | Raised e =>
      ∃ before file_name after,
        file_names = before ++ file_name :: after
        ∧ (files_loop r before w).1 = Normal
        ∧ (file_step r file_name (files_loop r before w).2).1 = Raised e
        ∧ page_gets (files_loop r file_names w).2
          = page_gets w
            ++ omap (page_of resolve_package_file mkurl_pypi_url r) (before ++ [file_name])
  end.
Proof.
  revert w. induction file_names as [|f rest IH]; intros w; simpl.
  - by rewrite app_nil_r.
  - pose proof (materialized_file_page r f w) as Hpage.
    destruct (file_step r f w) as [[|e] w1] eqn:Hstep; simpl in *.
    + specialize (IH w1).
      destruct (files_loop r rest w1) as [[|e] w2]; simpl in *.
      * rewrite IH, Hpage, <- app_assoc. f_equal. by destruct (page_of _ _ _ f).
      * destruct IH as (before & file_name & after & -> & Hbefore & Hraise & Hpages).
        exists (f :: before), file_name, after. simpl. rewrite Hstep.
        split; [done|]. split; [done|]. split; [done|].
        rewrite Hpages, Hpage, <- app_assoc. f_equal. by destruct (page_of _ _ _ f).
    + exists [], f, rest. simpl. rewrite Hstep.
      split; [done|]. split; [done|]. split; [done|].
      rewrite Hpage. by destruct (page_of _ _ _ f).
Qed.

#[local] Abbreviation of_file r :=
  (download_of_file resolve_package_file mkurl_pypi_url session_get get_file_links r).
#[local] Abbreviation of_batch r :=
  (download_of_batch executable pip resolve_package_file mkurl_pypi_url session_get
     get_file_links r).

Lemma materialized_file_downloads (r : run) (file_name : string) (w : world) :
  ∃ new, downloads (file_step r file_name w).2 = downloads w ++ new
         ∧ Forall (of_file r file_name) new.
Proof.
  unfold materialized_file.
  destruct (name _) as [project|] eqn:Hname; simpl;
    [|exists []; by rewrite app_nil_r].
  destruct (session_get _) as [text|] eqn:Hget; simpl;
    [|exists []; by rewrite app_nil_r].
  rewrite candidates_spec. simpl. eexists. split; [done|].
  apply Forall_fmap, Forall_forall. intros file Hfile.
  unfold eligible_files in Hfile. apply list_elem_of_filter in Hfile as [Hok Hin].
  split; [done|]. exists project, text. by rewrite Hname.
Qed.

Lemma materialized_files_downloads (r : run) (file_names : list string) (w : world) :
  ∃ new, downloads (files_loop r file_names w).2 = downloads w ++ new
         ∧ Forall (λ d, ∃ file_name, file_name ∈ file_names ∧ of_file r file_name d) new.
Proof.
  revert w. induction file_names as [|f rest IH]; intros w; simpl.
  - exists []. by rewrite app_nil_r.
  - destruct (materialized_file_downloads r f w) as (new1 & H1 & F1).
    assert (Forall (λ d, ∃ file_name, file_name ∈ f :: rest ∧ of_file r file_name d) new1)
      as F1'.
    { eapply Forall_impl; [exact F1|]. intros d Hd. exists f. split; [left | done]. }
    destruct (file_step r f w) as [[|e] w1]; simpl in *; [|by exists new1].
    destruct (IH w1) as (new2 & H2 & F2). exists (new1 ++ new2).
    rewrite H2, H1, <- app_assoc. split; [done|]. apply Forall_app. split; [done|].
    eapply Forall_impl; [exact F2|]. intros d (fn & Hfn & Hd). exists fn.
    split; [by right | done].
Qed.

Lemma package_body_downloads (r : run) (package : string) (w : world) :
  ∃ new, downloads (package_step r package w).2 = downloads w ++ new
         ∧ Forall (of_batch r [package]) new.
Proof.
  unfold package_body.
  set (cmd := command executable r _ package).
  destruct (pip cmd) as [status file_names] eqn:Hpip.
  case_bool_decide as Hst; simpl; [|exists []; by rewrite app_nil_r].
  destruct (materialized_files_downloads r file_names
              (record_pip_call cmd
                 (emit (Log INFO "--------------------------------------------------")
                    (emit (Log INFO ("We are using pip download command to download package "
                                     +:+ package)) w))))
    as (new & Hnew & Fnew).
  exists new. split.
  - destruct (files_loop r file_names _) as [[|e] w1]; simpl in *; exact Hnew.
  - eapply Forall_impl; [exact Fnew|]. intros d (fn & Hfn & Hd).
    exists package, (directory_path (length (pip_calls w))), fn. fold cmd. rewrite Hpip.
    split; [apply list_elem_of_here|]. split; [done|]. split; [done | exact Hd].
Qed.

Lemma download_of_batch_weaken (r : run) (pkgs pkgs' : list string) (d : string * string) :
  pkgs ⊆ pkgs' → of_batch r pkgs d → of_batch r pkgs' d.
Proof.
  intros Hsub (package & directory & fn & Hin & Hrest).
  exists package, directory, fn. split; [by apply Hsub | done].
Qed.

Lemma batch_downloads (r : run) (pkgs : list string) (w : world) :
  ∃ new, downloads (batch_loop r pkgs w).2 = downloads w ++ new
         ∧ Forall (of_batch r pkgs) new.
Proof.
  revert w. induction pkgs as [|p rest IH]; intros w; simpl.
  - exists []. by rewrite app_nil_r.
  - destruct (package_body_downloads r p w) as (new1 & H1 & F1).
    assert (Forall (of_batch r (p :: rest)) new1) as F1'.
    { eapply Forall_impl; [exact F1|]. intros d. apply download_of_batch_weaken.
      intros x Hx. apply list_elem_of_singleton in Hx as ->. apply list_elem_of_here. }
    destruct (package_step r p w) as [[|e] w1]; simpl in *; [|by exists new1].
    destruct (IH w1) as (new2 & H2 & F2). exists (new1 ++ new2).
    rewrite H2, H1, <- app_assoc. split; [done|]. apply Forall_app. split; [done|].
    eapply Forall_impl; [exact F2|]. intros d. apply download_of_batch_weaken.
    intros x Hx. by apply list_elem_of_further.
Qed.

(** X15.  Whatever a run writes, it writes to the directory of [--dest],
    or to the current directory when [--dest] is not given, and every file
    written is an eligible link of the project page of a file that the
    resolver materialised, with status 0, for a package of the batch:
    nothing is written for a package whose resolution failed, for a file
    whose name does not resolve, or from a page that could not be obtained. *)
Theorem downloads_are_accounted_for (o : options) (w : world) :
  let r := (prepared o w).1 in
  let pkgs := chain_packages (requirements_of parse_requirements (requirement_file o))
                (packages o) in
  run_dest_dir r = match dest_dir o with
                   | None | Some "" => getcwd
                   | Some d => d
                   end
  ∧ ∃ new, downloads (main o w).2 = downloads w ++ new
           ∧ Forall (of_batch r pkgs) new.
Proof.
  intros r pkgs. subst r pkgs. split.
  - by destruct (prepare_rest SETTINGS_FILE json_loads zone getcwd o w) as (-> & _).
  - unfold pipdownload.
    pose proof (prepare_effects SETTINGS_FILE json_loads zone getcwd o w) as (Hd & _).
    destruct (prepared o w) as [r w1]. simpl in *. rewrite <- Hd. apply batch_downloads.
Qed.

End Run_facts.

Lemma empty_batch_does_nothing_witness :
  (Demo.go (Options [] default_index_url None None [] ["win_amd64"] [] false false true)
     "Asia/Shanghai" (Demo.start None)).1 = Normal.
Proof.
  apply (empty_batch_does_nothing "settings.json" Demo.json_loads "Asia/Shanghai" "/cwd"
           Demo.parse_requirements "python" (λ n, "/tmp/d") Demo.pip
           Demo.resolve_package_file Demo.mkurl_pypi_url Demo.session_get
           Demo.get_file_links); reflexivity.
Defined.

Lemma eligible_links_downloaded_witness :
  dest_files "/wheels"
    (materialized_file Demo.resolve_package_file Demo.mkurl_pypi_url Demo.session_get
       Demo.get_file_links Demo.wheels "foo-1.0-cp39-cp39-win_amd64.whl"
       (Demo.start None)).2
  = ["foo-1.0-cp39-cp39-win_amd64.whl"].
Proof.
  destruct (eligible_links_downloaded Demo.resolve_package_file Demo.mkurl_pypi_url
              Demo.session_get Demo.get_file_links Demo.wheels
              "foo-1.0-cp39-cp39-win_amd64.whl" "foo" "https://pypi.org/simple/foo/"
              (Demo.start None)) as (_ & Hdest & _).
  - reflexivity.
  - reflexivity.
  - etrans; [exact Hdest | by vm_compute].
Defined.

Lemma unreachable_index_raises_witness :
  ∃ w2,
    materialized_files Demo.resolve_package_file Demo.mkurl_pypi_url Demo.offline_get
      Demo.get_file_links Demo.wheels
      ["README"; "foo-1.0-cp39-cp39-win_amd64.whl"; "bar-2.0.tar.gz"] (Demo.start None)
    = (Raised (ConnectionError "https://pypi.org/simple/foo/"), w2)
    ∧ downloads w2 = [].
Proof.
  destruct (unreachable_index_raises Demo.resolve_package_file Demo.mkurl_pypi_url
              Demo.offline_get Demo.get_file_links Demo.wheels ["README"]
              ["bar-2.0.tar.gz"] "foo-1.0-cp39-cp39-win_amd64.whl" "foo" (Demo.start None)
              (emit (Log WARNING unresolved_warning) (Demo.start None)))
    as (w2 & Hrun & Hd & _).
  - reflexivity.
  - reflexivity.
  - reflexivity.
  - exists w2. split; [exact Hrun | exact Hd].
Defined.

(** ** What is said, and when *)

Section Console_facts.

Variable SETTINGS_FILE : string.
Variable json_loads : string → option (gmap string (list string)).
Variable zone : string.
Variable getcwd : string.
Variable parse_requirements : string → list string.
Variable executable : string.
Variable directory_path : nat → string.
Variable pip : list string → Z * list string.
Variable resolve_package_file : string → PythonPackage.
Variable mkurl_pypi_url : string → string → string.
Variable session_get : string → option string.
Variable get_file_links : string → string → PythonPackage → list string.

#[local] Abbreviation file_step r :=
  (materialized_file resolve_package_file mkurl_pypi_url session_get get_file_links r).
#[local] Abbreviation files_loop r :=
  (materialized_files resolve_package_file mkurl_pypi_url session_get get_file_links r).
#[local] Abbreviation package_step r :=
  (package_body executable directory_path pip resolve_package_file mkurl_pypi_url
     session_get get_file_links r).
#[local] Abbreviation batch_loop r :=
  (batch executable directory_path pip resolve_package_file mkurl_pypi_url
     session_get get_file_links r).
#[local] Abbreviation prepared := (prepare SETTINGS_FILE json_loads zone getcwd).
#[local] Abbreviation main :=
  (pipdownload SETTINGS_FILE json_loads zone getcwd parse_requirements executable
     directory_path pip resolve_package_file mkurl_pypi_url session_get get_file_links).

Lemma records_added_refl (quiet : bool) (w w' : world) :
  console w' = console w → records_added quiet w w'.
Proof. intros H. exists []. by rewrite app_nil_r. Qed.

Lemma records_added_trans (quiet : bool) (w1 w2 w3 : world) :
  records_added quiet w1 w2 → records_added quiet w2 w3 → records_added quiet w1 w3.
Proof.
  intros (n1 & H1 & F1) (n2 & H2 & F2). exists (n1 ++ n2).
  rewrite H2, H1, <- app_assoc. split; [done | by apply Forall_app].
Qed.

Lemma records_added_emit (quiet : bool) (ev : console_event) (w : world) :
  is_record ev = true → records_added quiet w (emit ev w).
Proof. intros Hev. exists [ev]. split; [done|]. apply Forall_singleton. by left. Qed.

Lemma candidates_records (r : run) (file_name : string) (files : list string) (w : world) :
  records_added (run_quiet r) w (candidates r file_name files w).
Proof.
  rewrite candidates_spec. eexists. split; [done|].
  destruct (run_quiet r) eqn:Hq; [constructor|].
  apply Forall_fmap, Forall_forall. intros file _. right. split; [done | by eexists].
Qed.

Lemma materialized_file_records (r : run) (file_name : string) (w : world) :
  records_added (run_quiet r) w (file_step r file_name w).2.
Proof.
  unfold materialized_file.
  destruct (name _) as [project|]; simpl; [|by apply records_added_emit].
  set (w0 := record_page_get _ w).
  assert (records_added (run_quiet r) w w0) as H0 by by apply records_added_refl.
  destruct (session_get _); simpl.
  - eapply records_added_trans; [exact H0 | apply candidates_records].
  - eapply records_added_trans; [|by apply records_added_emit].
    eapply records_added_trans; [exact H0 | by apply records_added_emit].
Qed.

Lemma materialized_files_records (r : run) (file_names : list string) (w : world) :
  records_added (run_quiet r) w (files_loop r file_names w).2.
Proof.
  revert w. induction file_names as [|f rest IH]; intros w; simpl;
    [by apply records_added_refl|].
  pose proof (materialized_file_records r f w) as H1.
  destruct (file_step r f w) as [[|e] w1]; simpl in *; [|done].
  eapply records_added_trans; [exact H1 | apply IH].
Qed.

Lemma package_body_records (r : run) (package : string) (w : world) :
  records_added (run_quiet r) w (package_step r package w).2.
Proof.
  unfold package_body.
  destruct (pip _) as [status file_names].
  set (w0 := record_pip_call _ _).
  assert (records_added (run_quiet r) w w0) as H0.
  { eexists [_; _]. split; [simpl; by rewrite <- app_assoc|].
    repeat constructor; by left. }
  case_bool_decide as Hst; simpl.
  - pose proof (materialized_files_records r file_names w0) as H1.
    destruct (files_loop r file_names w0) as [[|e] w1]; simpl in *.
    + eapply records_added_trans; [exact H0|].
      eapply records_added_trans; [exact H1 | by apply records_added_emit].
    + by eapply records_added_trans.
  - eapply records_added_trans; [exact H0|].
    eapply records_added_trans; by apply records_added_emit.
Qed.

Lemma batch_records (r : run) (pkgs : list string) (w : world) :
  records_added (run_quiet r) w (batch_loop r pkgs w).2.
Proof.
  revert w. induction pkgs as [|p rest IH]; intros w; simpl; [by apply records_added_refl|].
  pose proof (package_body_records r p w) as H1.
  destruct (package_step r p w) as [[|e] w1]; simpl in *; [|done].
  eapply records_added_trans; [exact H1 | apply IH].
Qed.

(** X16.  What the command echoes and warns about while it fixes its
    options, and the setting of the logger's level, come before everything
    the loop over the packages writes.  The level is set, to ERROR, exactly
    when [--quiet] is given.  The loop writes logger records and, without
    [--quiet], the progress of each download; under [--quiet] it writes
    logger records only. *)
Theorem level_is_set_before_records (o : options) (w : world) :
  ∃ said written,
    console (main o w).2 = console w ++ said ++ written
    ∧ Forall (λ ev, (∃ text, ev = Echo text ∨ ev = Warn text) ∨ ev = SetLevel ERROR) said
    ∧ (SetLevel ERROR ∈ said ↔ quiet o = true)
    ∧ Forall (λ ev, is_record ev = true ∨ (quiet o = false ∧ ∃ file, ev = Progress file))
        written.
Proof.
  unfold pipdownload.
  pose proof (prepare_console SETTINGS_FILE json_loads zone getcwd o w) as Hsaid.
  pose proof (prepare_rest SETTINGS_FILE json_loads zone getcwd o w) as (_ & Hquiet & _).
  destruct (prepared o w) as [r w1]. simpl in Hsaid, Hquiet.
  destruct (batch_records r (chain_packages
              (requirements_of parse_requirements (requirement_file o)) (packages o)) w1)
    as (written & Hrec & Frec).
  rewrite Hquiet in Frec.
  set (d := read_settings json_loads (show_config_step SETTINGS_FILE o w)) in *.
  set (sv := (settings_python_versions d (python_versions o)).2) in *.
  set (sp := (settings_platform_tags d (whl_suffixes o) (platform_tags o)).2) in *.
  set (ss := (suffix_override (whl_suffixes o)
                (settings_platform_tags d (whl_suffixes o) (platform_tags o)).1).2) in *.
  set (sc := if show_config o
             then [Echo ("The config file is " +:+ SETTINGS_FILE +:+ ".")] else []).
  assert (console (show_config_step SETTINGS_FILE o w) = console w ++ sc) as Hsc.
  { unfold show_config_step, sc. destruct (show_config o); [|by rewrite app_nil_r].
    by destruct (settings_file w). }
  assert (∀ ev, ev ∈ sc ++ sv ++ sp ++ ss → ∃ text, ev = Echo text ∨ ev = Warn text) as Hkind.
  { intros ev. rewrite !elem_of_app. unfold sc, sv, sp, ss.
    unfold settings_python_versions, settings_platform_tags, suffix_override.
    intros [H|[H|[H|H]]].
    - destruct (show_config o); [|by apply elem_of_nil in H].
      apply list_elem_of_singleton in H. eauto.
    - destruct d; [|by apply elem_of_nil in H].
      destruct (negb _); [|by apply elem_of_nil in H]. simpl in H.
      destruct (negb _); [|by apply elem_of_nil in H].
      apply list_elem_of_singleton in H. eauto.
    - destruct d; [|by apply elem_of_nil in H].
      destruct (_ || _); [|by apply elem_of_nil in H]. simpl in H.
      destruct (negb _); [|by apply elem_of_nil in H].
      apply list_elem_of_singleton in H. eauto.
    - destruct (truthy _); [|by apply elem_of_nil in H].
      apply list_elem_of_singleton in H. eauto. }
  exists ((sc ++ sv ++ sp ++ ss) ++ (if quiet o then [SetLevel ERROR] else [])), written.
  split; [|split; [|split; [|done]]].
  - rewrite Hrec, Hsaid, Hsc, <- !app_assoc. done.
  - apply Forall_app. split.
    + apply Forall_forall. intros ev Hev. left. by apply Hkind.
    + destruct (quiet o); [apply Forall_singleton; by right | constructor].
  - rewrite elem_of_app. split.
    + intros [H|H]; [by destruct (Hkind _ H) as [text [?|?]]|].
      destruct (quiet o); [done | by apply elem_of_nil in H].
    + intros ->. right. apply list_elem_of_here.
Qed.

End Console_facts.
